(** * Voice OTP client (examples/generic/python-requests.py)

    A shallow embedding of the script: [generate_otp], [send_voice_otp]
    and [main], over an explicit model of what the script touches — the
    process environment, [sys.argv], the random generator, the HTTP
    transport and standard output.

    A Python [str] is a Rocq [string], one [ascii] per code point; this
    covers the code points below 256. *)

From Stdlib Require Import ZArith Lia Ascii String List Bool.
From stdpp Require Import base strings list numbers pretty gmap.

Local Open Scope string_scope.
Local Open Scope Z_scope.
Set Warnings "-register-all".
Set Default Proof Using "Type".

(** ** Python values *)

(** The values [json.loads] can produce.  A [float] is carried by its
    [repr]; a [dict] is its items in insertion order. *)
Inductive pyval : Type :=
| PNone
| PBool (b : bool)
| PInt (n : Z)
| PFloat (r : string)
| PStr (s : string)
| PList (l : list pyval)
| PDict (d : list (string * pyval)).

Abbreviation pydict := (list (string * pyval)).

(** A JSON document as its text spells it: an object is the list of its
    members, in order, repeated names included. *)
Inductive jvalue : Type :=
| JNull
| JBool (b : bool)
| JInt (n : Z)
| JFloat (r : string)
| JString (s : string)
| JArray (l : list jvalue)
| JObject (members : list (string * jvalue)).

Module Dict.

(** [d.get(k)] *)
Fixpoint get (k : string) (d : pydict) : option pyval :=
  match d with
  | [] => None
  | (k', v) :: d' => if String.eqb k k' then Some v else get k d'
  end.

(** [d[k] = v]: an existing key keeps its place, a new one goes last. *)
Fixpoint set (k : string) (v : pyval) (d : pydict) : pydict :=
  match d with
  | [] => [(k, v)]
  | (k', v') :: d' =>
      if String.eqb k k' then (k', v) :: d' else (k', v') :: set k v d'
  end.

(** [d.update(items)] *)
Definition update (d : pydict) (items : pydict) : pydict :=
  fold_left (fun acc kv => set kv.1 kv.2 acc) items d.

(** [dict(pairs)] *)
Definition of_pairs (pairs : pydict) : pydict := update [] pairs.

Definition keys (d : pydict) : list string := map fst d.

End Dict.

(** [json.loads], from the document to the value: a repeated member name
    keeps its first place and its last value. *)
Fixpoint loads (j : jvalue) : pyval :=
  match j with
  | JNull => PNone
  | JBool b => PBool b
  | JInt n => PInt n
  | JFloat r => PFloat r
  | JString s => PStr s
  | JArray l => PList (map loads l)
  | JObject members =>
      PDict (Dict.of_pairs (map (fun m => (m.1, loads m.2)) members))
  end.

(** [type(v).__name__] *)
Definition type_name (v : pyval) : string :=
  match v with
  | PNone => "NoneType"
  | PBool _ => "bool"
  | PInt _ => "int"
  | PFloat _ => "float"
  | PStr _ => "str"
  | PList _ => "list"
  | PDict _ => "dict"
  end.

(** ** [str] and [repr] *)

(** [str(n)] for an [int]: decimal, a minus sign for negatives. *)
Definition str_int (n : Z) : string := pretty n.

Definition hex_digit (n : N) : ascii :=
  match n with
  | 10 => "a" | 11 => "b" | 12 => "c" | 13 => "d" | 14 => "e" | 15 => "f"
  | _ => pretty_N_char n
  end%char%N.

(** [str.isprintable] on one code point below 256. *)
Definition printable (c : ascii) : bool :=
  let n := N_of_ascii c in
  ((32 <=? n) && (n <? 127) || (161 <=? n) && negb (n =? 173))%N.

Definition escape_char (quote c : ascii) : string :=
  if Ascii.eqb c "\" then "\\"
  else if Ascii.eqb c quote then String "\" (String quote "")
  else if Ascii.eqb c "009" then "\t"
  else if Ascii.eqb c "010" then "\n"
  else if Ascii.eqb c "013" then "\r"
  else if printable c then String c ""
  else let n := N_of_ascii c in
       String "\" (String "x"
         (String (hex_digit (n / 16)) (String (hex_digit (n mod 16)) ""))).

Fixpoint escape (quote : ascii) (s : string) : string :=
  match s with
  | "" => ""
  | String c s' => escape_char quote c ++ escape quote s'
  end.

Fixpoint contains_char (c : ascii) (s : string) : bool :=
  match s with
  | "" => false
  | String c' s' => Ascii.eqb c c' || contains_char c s'
  end.

(** [repr(s)] for a [str]: single quotes, unless the text has a single
    quote and no double quote (code point 34). *)
Definition repr_str (s : string) : string :=
  let quote : ascii :=
    if contains_char "'" s && negb (contains_char "034" s)
    then "034"%char else "'"%char in
  String quote (escape quote s ++ String quote "").

Fixpoint join (sep : string) (l : list string) : string :=
  match l with
  | [] => ""
  | [x] => x
  | x :: l' => x ++ sep ++ join sep l'
  end.

Fixpoint repr (v : pyval) : string :=
  match v with
  | PNone => "None"
  | PBool true => "True"
  | PBool false => "False"
  | PInt n => str_int n
  | PFloat r => r
  | PStr s => repr_str s
  | PList l => "[" ++ join ", " (map repr l) ++ "]"
  | PDict d =>
      "{" ++ join ", " (map (fun kv => repr_str kv.1 ++ ": " ++ repr kv.2) d)
          ++ "}"
  end.

(** What an f-string puts for [{v}]: [str(v)]. *)
Definition str (v : pyval) : string :=
  match v with
  | PStr s => s
  | _ => repr v
  end.

(** ** Exceptions *)

Inductive exn_class : Type :=
| ValueError
| HTTPError
| JSONDecodeError
| AttributeError
| TypeError
| ConnectionError
| Timeout
| UnicodeEncodeError.

(** [SystemExit] is not an [Exception]; the other classes are. *)
Inductive exn : Type :=
| SystemExit (status : Z)
| Exception (c : exn_class) (msg : string).

(** [str(e)] *)
Definition exn_str (e : exn) : string :=
  match e with
  | SystemExit status => str_int status
  | Exception _ msg => msg
  end.

(** ** The world of one run *)

(** A response body: the JSON document it spells, or, when it spells
    none, the decoder's complaint. *)
Inductive payload : Type :=
| Json (j : jvalue)
| NotJson (complaint : string).

(** What the script reads of a response: [response.ok] and the body. *)
Record response : Type := Response {
  ok : bool;
  body : payload
}.

(** The arguments of one [requests.post] call. *)
Record post_call : Type := PostCall {
  url : string;
  json : pyval;
  headers : list (string * string);
  timeout : Z
}.

(** What a call comes back with: an exception of the transport
    (unreachable, timed out) or a response. *)
Inductive reply : Type :=
| Fails (c : exn_class) (msg : string)
| Responds (r : response).

Record world : Type := World {
  environ : gmap string string;      (* os.environ *)
  argv : list string;                (* sys.argv *)
  random : nat -> Z;                 (* the generator's raw draws *)
  drawn : nat;                       (* how many were taken *)
  gateway : post_call -> reply;      (* the network *)
  posted : list post_call;           (* the calls made, oldest first *)
  stdout : list string;              (* the lines printed, oldest first *)
  stdout_rejects : string -> option string
    (* the complaint of stdout's encoder about a line it cannot write *)
}.

Inductive result (A : Type) : Type :=
| Ret (a : A)
| Raise (e : exn).
Arguments Ret {A} a.
Arguments Raise {A} e.

(** A computation: reads and changes the world, returns or raises. *)
Definition M (A : Type) : Type := world -> result A * world.

Definition ret {A} (a : A) : M A := fun w => (Ret a, w).

Definition raise {A} (e : exn) : M A := fun w => (Raise e, w).

Definition bind {A B} (m : M A) (k : A -> M B) : M B :=
  fun w =>
    match m w with
    | (Ret a, w') => k a w'
    | (Raise e, w') => (Raise e, w')
    end.

Notation "x <- m ;; k" := (bind m (fun x => k))
  (at level 100, m at next level, right associativity).
Notation "m ;; k" := (bind m (fun _ => k))
  (at level 100, right associativity).

(** [try: body  except Exception as e: handler(e)] *)
Definition try_except {A} (body : M A) (handler : exn -> M A) : M A :=
  fun w =>
    match body w with
    | (Raise (Exception c msg), w') => handler (Exception c msg) w'
    | r => r
    end.

(** [os.environ.get(name)] *)
Definition environ_get (name : string) : M (option string) :=
  fun w => (Ret (environ w !! name), w).

Definition sys_argv : M (list string) := fun w => (Ret (argv w), w).

(** [sys.exit(status)] *)
Definition sys_exit {A} (status : Z) : M A := raise (SystemExit status).

(** Text every encoding of standard output can write: code points
    below 128. *)
Fixpoint ascii_only (s : string) : bool :=
  match s with
  | EmptyString => true
  | String c s' => (N_of_ascii c <? 128)%N && ascii_only s'
  end.

(** The world once a line has reached standard output. *)
Definition write (line : string) (w : world) : world :=
  {| environ := environ w; argv := argv w; random := random w;
     drawn := drawn w; gateway := gateway w; posted := posted w;
     stdout := stdout w ++ [line]; stdout_rejects := stdout_rejects w |}.

(** [print(line)], standard output being open: the line is written,
    unless it holds a character the encoding of standard output cannot
    write, which raises [UnicodeEncodeError] and writes nothing. *)
Definition print (line : string) : M unit :=
  fun w =>
    if ascii_only line then (Ret tt, write line w)
    else match stdout_rejects w line with
         | Some complaint =>
             (Raise (Exception UnicodeEncodeError complaint), w)
         | None => (Ret tt, write line w)
         end.

(** [random.randint(a, b)]: the next raw draw, brought into [a..b]. *)
Definition randint (a b : Z) : M Z :=
  fun w =>
    (Ret (a + random w (drawn w) mod (b - a + 1)),
     {| environ := environ w; argv := argv w; random := random w;
        drawn := S (drawn w); gateway := gateway w; posted := posted w;
        stdout := stdout w;
     stdout_rejects := stdout_rejects w |}).

(** [requests.post(url, json=..., headers=..., timeout=...)] *)
Definition requests_post (c : post_call) : M response :=
  fun w =>
    let w' :=
      {| environ := environ w; argv := argv w; random := random w;
         drawn := drawn w; gateway := gateway w; posted := posted w ++ [c];
         stdout := stdout w;
     stdout_rejects := stdout_rejects w |} in
    match gateway w c with
    | Fails cls msg => (Raise (Exception cls msg), w')
    | Responds r => (Ret r, w')
    end.

(** [response.json()] *)
Definition response_json (r : response) : M pyval :=
  match body r with
  | Json j => ret (loads j)
  | NotJson complaint => raise (Exception JSONDecodeError complaint)
  end.

(** [v.get(key)] *)
Definition py_get (v : pyval) (key : string) : M pyval :=
  match v with
  | PDict d => ret (default PNone (Dict.get key d))
  | _ => raise (Exception AttributeError
                  ("'" ++ type_name v ++ "' object has no attribute 'get'"))
  end.

(** The dict display [{k: x, **v}]. *)
Definition dict_display (k : string) (x : pyval) (v : pyval) : M pydict :=
  match v with
  | PDict d => ret (Dict.update [(k, x)] d)
  | _ => raise (Exception TypeError
                  ("'" ++ type_name v ++ "' object is not a mapping"))
  end.

(** ** Regular expressions *)

(** The part of the [re] syntax the script's pattern is written in. *)
Inductive regex : Type :=
| Bol                                 (* ^ *)
| Eol                                 (* $ *)
| Lit (c : ascii)                     (* one character, as in \+ *)
| Range (lo hi : ascii)               (* [lo-hi] *)
| Digit                               (* \d *)
| Seq (r1 r2 : regex)                 (* r1 r2 *)
| Repeat (r : regex) (lo hi : nat).   (* r{lo,hi} *)

Module Re.

(** What is left to match once a piece has matched: the position
    reached and the text after it. *)
Definition cont : Type := nat -> string -> bool.

Definition in_range (lo hi c : ascii) : bool :=
  ((N_of_ascii lo <=? N_of_ascii c) && (N_of_ascii c <=? N_of_ascii hi))%N.

(** \d: a decimal digit; among the code points below 256 these are
    0 to 9. *)
Definition is_digit (c : ascii) : bool := in_range "0" "9" c.

Definition one (p : ascii -> bool) (k : cont) : cont :=
  fun pos s =>
    match s with
    | String c s' => p c && k (S pos) s'
    | EmptyString => false
    end.

(** $ without MULTILINE: at the end, or before a newline that ends
    the text. *)
Definition at_end (s : string) : bool :=
  match s with
  | EmptyString => true
  | String c EmptyString => Ascii.eqb c "010"
  | _ => false
  end.

Fixpoint times (step : cont -> cont) (n : nat) (k : cont) : cont :=
  match n with
  | O => k
  | S n' => step (times step n' k)
  end.

Fixpoint upto (step : cont -> cont) (n : nat) (k : cont) : cont :=
  match n with
  | O => k
  | S n' => fun pos s => step (upto step n' k) pos s || k pos s
  end.

Fixpoint matches (r : regex) (k : cont) : cont :=
  match r with
  | Bol => fun pos s => (pos =? 0)%nat && k pos s
  | Eol => fun pos s => at_end s && k pos s
  | Lit c => one (Ascii.eqb c) k
  | Range lo hi => one (in_range lo hi) k
  | Digit => one is_digit k
  | Seq r1 r2 => matches r1 (matches r2 k)
  | Repeat r lo hi => times (matches r) lo (upto (matches r) (hi - lo) k)
  end.

(** [re.match(pattern, text)], as the truth value of its result: the
    pattern matches some prefix of the text. *)
Definition match_ (pattern : regex) (text : string) : bool :=
  matches pattern (fun _ _ => true) O text.

End Re.

(** ** The script *)

(** [r"^\+[1-9]\d{9,14}$"] *)
Definition phone_pattern : regex :=
  Seq Bol (Seq (Lit "+") (Seq (Range "1" "9") (Seq (Repeat Digit 9 14) Eol))).

Definition generate_otp : M string :=
  n <- randint 100000 999999 ;;
  ret (str_int n).

Definition send_voice_otp (phone : string) (code : option string) : M pydict :=
  gateway_url <- environ_get "GATEWAY_URL" ;;
  api_secret <- environ_get "API_SECRET" ;;
  match gateway_url with
  | None | Some "" =>
      raise (Exception ValueError "GATEWAY_URL environment variable is required")
  | Some gateway_url =>
  match api_secret with
  | None | Some "" =>
      raise (Exception ValueError "API_SECRET environment variable is required")
  | Some api_secret =>
      otp_code <- match code with
                  | None | Some "" => generate_otp
                  | Some code => ret code
                  end ;;
      response <- requests_post
        {| url := gateway_url ++ "/send-otp";
           json := PDict [("phone", PStr phone);
                          ("code", PStr otp_code);
                          ("secret", PStr api_secret)];
           headers := [("Content-Type", "application/json")];
           timeout := 30 |} ;;
      if negb (ok response) then
        error <- response_json response ;;
        message <- py_get error "message" ;;
        err <- py_get error "error" ;;
        raise (Exception HTTPError
                 ("API Error: " ++ str message ++ " (" ++ str err ++ ")"))
      else
        reply <- response_json response ;;
        dict_display "code" (PStr otp_code) reply
  end
  end.

Definition main : M unit :=
  args <- sys_argv ;;
  if (length args <? 2)%nat then
    print "Usage: python python-requests.py <phone> [code]" ;;
    print "Example: python python-requests.py +14155551234" ;;
    sys_exit 1
  else
    let phone := nth 1 args "" in
    let code := if (2 <? length args)%nat then Some (nth 2 args "") else None in
    if negb (Re.match_ phone_pattern phone) then
      print "Error: Phone must be in E.164 format (e.g., +14155551234)" ;;
      sys_exit 1
    else
      try_except
        (print ("Sending OTP to " ++ phone ++ "...") ;;
         result <- send_voice_otp phone code ;;
         print ("Success: " ++ str (PDict result)))
        (fun e =>
           print ("Failed: " ++ exn_str e) ;;
           sys_exit 1).

(** The status the process ends with after [main()]: 0 when it returns,
    the argument of [sys.exit] when that was called, 1 for an exception
    nothing caught. *)
Definition exit_status (r : result unit) : Z :=
  match r with
  | Ret _ => 0
  | Raise (SystemExit status) => status
  | Raise (Exception _ _) => 1
  end.

Definition run (w : world) : Z * world :=
  let (r, w') := main w in (exit_status r, w').

(** ** Specification vocabulary *)

Fixpoint all_chars (p : ascii -> bool) (s : string) : bool :=
  match s with
  | EmptyString => true
  | String c s' => p c && all_chars p s'
  end.

Definition digit_value (c : ascii) : Z := Z.of_N (N_of_ascii c) - 48.

Fixpoint decimal_from (acc : Z) (s : string) : option Z :=
  match s with
  | EmptyString => Some acc
  | String c s' =>
      if Re.is_digit c then decimal_from (10 * acc + digit_value c) s' else None
  end.

(** The number a non-empty string of ASCII digits writes. *)
Definition decimal (s : string) : option Z :=
  match s with
  | EmptyString => None
  | _ => decimal_from 0 s
  end.

Definition newline : string := String "010" "".

(** The phone format in the specification's words: a leading +, a first
    digit 1 to 9, then 9 to 14 more digits. *)
Definition e164 (phone : string) : bool :=
  match phone with
  | String plus (String first more) =>
      Ascii.eqb plus "+" && Re.in_range "1" "9" first
      && all_chars Re.is_digit more
      && (9 <=? String.length more)%nat && (String.length more <=? 14)%nat
  | _ => false
  end.

(** Both configuration values resolve: set and not empty. *)
Definition configured (w : world) (gateway_url api_secret : string) : Prop :=
  environ w !! "GATEWAY_URL" = Some gateway_url /\ gateway_url <> "" /\
  environ w !! "API_SECRET" = Some api_secret /\ api_secret <> "".

(** A variable the script cannot use: unset, or set to nothing. *)
Definition unresolved (w : world) (name : string) : Prop :=
  environ w !! name = None \/ environ w !! name = Some "".

Definition configuration_error (name : string) : exn :=
  Exception ValueError (name ++ " environment variable is required").

(** [code or generate_otp()] *)
Definition code_or_generate (code : option string) : M string :=
  match code with
  | None | Some "" => generate_otp
  | Some code => ret code
  end.

(** The effective code of a call made in world [w]. *)
Definition effective_code (code : option string) (w : world) : string :=
  match (code_or_generate code w).1 with
  | Ret otp_code => otp_code
  | Raise _ => ""
  end.

(** The request [send_voice_otp] builds. *)
Definition otp_request (gateway_url api_secret phone otp_code : string)
  : post_call :=
  {| url := gateway_url ++ "/send-otp";
     json := PDict [("phone", PStr phone);
                    ("code", PStr otp_code);
                    ("secret", PStr api_secret)];
     headers := [("Content-Type", "application/json")];
     timeout := 30 |}.

(** Lines 62 to 68: what [send_voice_otp] makes of the response. *)
Definition conclude (otp_code : string) (response : response) : M pydict :=
  if negb (ok response) then
    error <- response_json response ;;
    message <- py_get error "message" ;;
    err <- py_get error "error" ;;
    raise (Exception HTTPError
             ("API Error: " ++ str message ++ " (" ++ str err ++ ")"))
  else
    reply <- response_json response ;;
    dict_display "code" (PStr otp_code) reply.

(** The members of a JSON object as the dict [json.loads] makes of them. *)
Definition loads_object (members : list (string * jvalue)) : pydict :=
  Dict.of_pairs (map (fun m => (m.1, loads m.2)) members).

Definition with_environ (env : gmap string string) (w : world) : world :=
  {| environ := env; argv := argv w; random := random w; drawn := drawn w;
     gateway := gateway w; posted := posted w; stdout := stdout w;
     stdout_rejects := stdout_rejects w |}.

(** [sys.argv[1]] and the optional [sys.argv[2]], as [main] reads them. *)
Definition phone_arg (w : world) : string := nth 1 (argv w) "".

Definition code_arg (w : world) : option string :=
  if (2 <? length (argv w))%nat then Some (nth 2 (argv w) "") else None.

(** The world in which [main] calls [send_voice_otp]. *)
Definition announced (w : world) : world :=
  (print ("Sending OTP to " ++ phone_arg w ++ "...") w).2.

Definition usage : list string :=
  ["Usage: python python-requests.py <phone> [code]";
   "Example: python python-requests.py +14155551234"].

Definition format_error : string :=
  "Error: Phone must be in E.164 format (e.g., +14155551234)".

(** ** Sample worlds *)

Definition sample_environ : gmap string string :=
  <["GATEWAY_URL" := "https://gw.example"]> (<["API_SECRET" := "s3cret"]> ∅).

Definition sample_world (env : gmap string string) (args : list string)
    (g : post_call -> reply) : world :=
  {| environ := env; argv := args;
     random := fun _ => 382913; drawn := 0;
     gateway := g; posted := []; stdout := [];
     stdout_rejects := fun _ => None |}.

Definition queued : reply :=
  Responds {| ok := true;
              body := Json (JObject [("call_id", JString "abc123");
                                     ("status", JString "queued")]) |}.

Definition auth_failed : reply :=
  Responds {| ok := false;
              body := Json (JObject [("message", JString "invalid secret");
                                     ("error", JString "AUTH_FAILED")]) |}.

Definition echoes_code : reply :=
  Responds {| ok := true;
              body := Json (JObject [("code", JString "000000");
                                     ("status", JString "queued")]) |}.

Definition bad_gateway : reply :=
  Responds {| ok := false;
              body := NotJson "Expecting value: line 1 column 1 (char 0)" |}.

(** A phone argument that ends in a newline. *)
Definition newline_phone : string := "+14155551234" ++ newline.

Definition newline_world : world :=
  sample_world sample_environ ["python-requests.py"; newline_phone]
    (fun _ => queued).

(** ** Vocabulary for the rest of [send_voice_otp] and [main] *)

(** Whether [code or generate_otp()] calls [generate_otp]. *)
Definition generates (code : option string) : bool :=
  match code with
  | None | Some "" => true
  | Some _ => false
  end.

(** The world a configured call leaves: one more request in the log,
    one more draw taken when a code was generated, the rest as it
    was. *)
Definition after_send (w : world) (generated : bool) (request : post_call)
  : world :=
  {| environ := environ w; argv := argv w; random := random w;
     drawn := if generated then S (drawn w) else drawn w;
     gateway := gateway w; posted := posted w ++ [request];
     stdout := stdout w;
     stdout_rejects := stdout_rejects w |}.

(** The text of the exception a non-object body ends in: [**v] on an ok
    response, [v.get] on a failed one. *)
Definition not_object_error (ok_response : bool) (v : pyval) : exn :=
  if ok_response
  then Exception TypeError ("'" ++ type_name v ++ "' object is not a mapping")
  else Exception AttributeError
         ("'" ++ type_name v ++ "' object has no attribute 'get'").

(** Whether [print] gets a line onto standard output. *)
Definition writable (w : world) (line : string) : bool :=
  ascii_only line
  || match stdout_rejects w line with
     | Some _ => false
     | None => true
     end.

(** A world whose standard output is ASCII-only. *)
Definition ascii_stdout (w : world) : world :=
  {| environ := environ w; argv := argv w; random := random w;
     drawn := drawn w; gateway := gateway w; posted := posted w;
     stdout := stdout w;
     stdout_rejects := fun _ =>
       Some "'ascii' codec can't encode character '\xe9' in position 44: ordinal not in range(128)" |}.

(** An ok answer whose body holds the letter e with an acute accent
    (code point 233). *)
Definition accented_ok : reply :=
  Responds {| ok := true;
              body := Json (JObject [("status",
                                      JString ("envoy" ++ String "233" ""))]) |}.

Definition accented_world : world :=
  ascii_stdout
    (sample_world sample_environ ["python-requests.py"; "+14155551234"]
       (fun _ => accented_ok)).

Definition unreachable : reply :=
  Fails ConnectionError "Connection refused".

Definition array_failure : reply :=
  Responds {| ok := false; body := Json (JArray [JString "down"]) |}.

Definition empty_ok : reply :=
  Responds {| ok := true;
              body := NotJson "Expecting value: line 1 column 1 (char 0)" |}.


(** ** Decimal strings *)

Section Decimal.

Local Ltac Zify.zify_post_hook ::= Z.to_euclidean_division_equations.

Lemma pretty_N_char_digit (k : N) :
  (k < 10)%N ->
  Re.is_digit (pretty_N_char k) = true /\
  digit_value (pretty_N_char k) = Z.of_N k.
Proof.
  intros Hk.
  assert (k = 0 \/ k = 1 \/ k = 2 \/ k = 3 \/ k = 4 \/ k = 5 \/ k = 6
          \/ k = 7 \/ k = 8 \/ k = 9)%N as Hc by lia.
  repeat (destruct Hc as [-> | Hc]; [split; reflexivity |]).
  subst k. split; reflexivity.
Qed.

Lemma pretty_N_six (x : N) :
  (100000 <= x <= 999999)%N ->
  pretty x =
    String (pretty_N_char (x / 100000 mod 10))
      (String (pretty_N_char (x / 10000 mod 10))
         (String (pretty_N_char (x / 1000 mod 10))
            (String (pretty_N_char (x / 100 mod 10))
               (String (pretty_N_char (x / 10 mod 10))
                  (String (pretty_N_char (x mod 10)) ""))))).
Proof.
  intros Hx. unfold pretty, pretty_N.
  destruct (decide (x = 0)%N) as [-> | _]; [lia |].
  do 6 (rewrite pretty_N_go_step by lia).
  rewrite !N.Div0.div_div.
  change (10 * 10)%N with 100%N. change (10 * 100)%N with 1000%N.
  change (10 * 1000)%N with 10000%N. change (10 * 10000)%N with 100000%N.
  change (10 * 100000)%N with 1000000%N.
  replace (x / 1000000)%N with 0%N by lia.
  reflexivity.
Qed.

Lemma pretty_N_six_digits (x : N) :
  (100000 <= x <= 999999)%N ->
  String.length (pretty x) = 6%nat /\
  all_chars Re.is_digit (pretty x) = true /\
  decimal (pretty x) = Some (Z.of_N x).
Proof.
  intros Hx. rewrite pretty_N_six by assumption.
  split; [reflexivity |].
  unfold decimal, decimal_from, all_chars.
  repeat match goal with
  | |- context [pretty_N_char ?k] =>
      let H1 := fresh in let H2 := fresh in
      destruct (pretty_N_char_digit k) as [H1 H2]; [lia |];
      rewrite ?H1, ?H2; clear H1 H2
  end.
  split; [reflexivity |]. f_equal. lia.
Qed.

Lemma str_int_six (n : Z) :
  100000 <= n <= 999999 ->
  String.length (str_int n) = 6%nat /\
  all_chars Re.is_digit (str_int n) = true /\
  decimal (str_int n) = Some n.
Proof.
  intros Hn. destruct n as [| p | p]; try lia.
  apply (pretty_N_six_digits (N.pos p)). lia.
Qed.

End Decimal.

Lemma str_int_inj (m n : Z) : str_int m = str_int n -> m = n.
Proof. apply pretty_Z_inj. Qed.

(** ** [generate_otp] *)

Lemma generate_otp_run (w : world) :
  generate_otp w =
    (Ret (str_int (100000 + random w (drawn w) mod 900000)),
     {| environ := environ w; argv := argv w; random := random w;
        drawn := S (drawn w); gateway := gateway w; posted := posted w;
        stdout := stdout w;
     stdout_rejects := stdout_rejects w |}).
Proof. reflexivity. Qed.

(** C6. Every code [generate_otp] produces is a string of exactly six
    ASCII digits that writes a number between 100000 and 999999, both
    included; and the draw is uniform: each of the 900000 codes comes
    from exactly one residue of the generator's raw draw modulo 900000,
    so equally likely raw draws give equally likely codes. *)
Theorem generate_otp_six_digits (w : world) :
  exists otp n w',
    generate_otp w = (Ret otp, w') /\
    String.length otp = 6%nat /\
    all_chars Re.is_digit otp = true /\
    decimal otp = Some n /\
    100000 <= n <= 999999 /\
    (forall m, 100000 <= m <= 999999 ->
       otp = str_int m <-> random w (drawn w) mod 900000 = m - 100000).
Proof.
  set (n := 100000 + random w (drawn w) mod 900000).
  assert (100000 <= n <= 999999) as Hn.
  { pose proof (Z.mod_pos_bound (random w (drawn w)) 900000). lia. }
  destruct (str_int_six n Hn) as (Hlen & Hdig & Hval).
  exists (str_int n), n. eexists. rewrite generate_otp_run. fold n.
  split; [reflexivity |].
  do 4 (split; [assumption |]).
  intros m Hm. split; intros Heq.
  - apply str_int_inj in Heq. lia.
  - f_equal. lia.
Qed.

Lemma generate_otp_six_digits_witness :
  exists otp n w',
    generate_otp (sample_world sample_environ [] (fun _ => queued))
      = (Ret otp, w') /\
    String.length otp = 6%nat /\
    all_chars Re.is_digit otp = true /\
    decimal otp = Some n /\
    100000 <= n <= 999999 /\
    (forall m, 100000 <= m <= 999999 ->
       otp = str_int m <-> 382913 mod 900000 = m - 100000).
Proof.
  exact (generate_otp_six_digits
           (sample_world sample_environ [] (fun _ => queued))).
Defined.

(** ** [send_voice_otp]: configuration *)

Lemma send_voice_otp_no_gateway_url phone code w :
  unresolved w "GATEWAY_URL" ->
  send_voice_otp phone code w = (Raise (configuration_error "GATEWAY_URL"), w).
Proof.
  intros [H | H]; unfold send_voice_otp, bind, environ_get; rewrite H;
    reflexivity.
Qed.

Lemma send_voice_otp_no_api_secret phone code w g :
  environ w !! "GATEWAY_URL" = Some g -> g <> "" ->
  unresolved w "API_SECRET" ->
  send_voice_otp phone code w = (Raise (configuration_error "API_SECRET"), w).
Proof.
  intros Hg Hne [H | H]; unfold send_voice_otp, bind, environ_get;
    rewrite Hg, H; destruct g; try congruence; reflexivity.
Qed.

Lemma resolved_or_not (w : world) (name : string) :
  unresolved w name \/ exists v, environ w !! name = Some v /\ v <> "".
Proof.
  unfold unresolved. destruct (environ w !! name) as [[| c v] |].
  - left. right. reflexivity.
  - right. eexists. split; [reflexivity | discriminate].
  - left. left. reflexivity.
Qed.

(** C3. When GATEWAY_URL or API_SECRET is unset, [send_voice_otp] fails
    at once with a [ValueError] whose message names a variable the
    script could not resolve — GATEWAY_URL whenever that one is unset,
    API_SECRET when GATEWAY_URL resolves — and leaves the world as it
    was: no request is posted. *)
Theorem send_voice_otp_unset_configuration phone code w :
  environ w !! "GATEWAY_URL" = None \/ environ w !! "API_SECRET" = None ->
  exists name,
    send_voice_otp phone code w = (Raise (configuration_error name), w) /\
    posted (send_voice_otp phone code w).2 = posted w /\
    (name = "GATEWAY_URL" \/ name = "API_SECRET") /\
    unresolved w name /\
    (environ w !! "GATEWAY_URL" = None -> name = "GATEWAY_URL") /\
    ((exists g, environ w !! "GATEWAY_URL" = Some g /\ g <> "") ->
     name = "API_SECRET").
Proof.
  intros Hunset.
  destruct (resolved_or_not w "GATEWAY_URL") as [Hg | (g & Hg & Hne)].
  - exists "GATEWAY_URL".
    rewrite (send_voice_otp_no_gateway_url phone code w Hg).
    repeat split; auto.
    intros (g & Hg' & Hne). destruct Hg as [Hg | Hg]; congruence.
  - destruct Hunset as [Hu | Hu]; [congruence |].
    exists "API_SECRET".
    rewrite (send_voice_otp_no_api_secret phone code w g Hg Hne (or_introl Hu)).
    repeat split; auto.
    + left. assumption.
    + congruence.
Qed.

Lemma send_voice_otp_unset_configuration_witness :
  exists name,
    send_voice_otp "+14155551234" None
        (sample_world (delete "API_SECRET" sample_environ) [] (fun _ => queued))
      = (Raise (configuration_error name),
         sample_world (delete "API_SECRET" sample_environ) [] (fun _ => queued))
    /\ name = "API_SECRET".
Proof.
  destruct (send_voice_otp_unset_configuration "+14155551234" None
              (sample_world (delete "API_SECRET" sample_environ) []
                 (fun _ => queued)))
    as (name & Hrun & _ & _ & _ & _ & Hname).
  - right. vm_compute. reflexivity.
  - exists name. split; [exact Hrun |].
    apply Hname. exists "https://gw.example".
    split; [vm_compute; reflexivity | discriminate].
Defined.

(** C9. A variable set to the empty string counts as unset: with
    GATEWAY_URL empty the GATEWAY_URL error is raised, with API_SECRET
    empty (and GATEWAY_URL resolving) the API_SECRET error is raised,
    the world is left as it was (no request), and the outcome is the
    one the call has once the variable is removed from the
    environment. *)
Theorem send_voice_otp_empty_configuration phone code w :
  (environ w !! "GATEWAY_URL" = Some "" ->
   send_voice_otp phone code w
     = (Raise (configuration_error "GATEWAY_URL"), w)) /\
  (environ w !! "API_SECRET" = Some "" ->
   (exists name,
      send_voice_otp phone code w = (Raise (configuration_error name), w) /\
      unresolved w name) /\
   (forall g, environ w !! "GATEWAY_URL" = Some g -> g <> "" ->
      send_voice_otp phone code w
        = (Raise (configuration_error "API_SECRET"), w))) /\
  (forall name, name = "GATEWAY_URL" \/ name = "API_SECRET" ->
   environ w !! name = Some "" ->
   (send_voice_otp phone code w).1
     = (send_voice_otp phone code
          (with_environ (delete name (environ w)) w)).1).
Proof.
  split; [| split].
  - intros H. apply send_voice_otp_no_gateway_url. right. exact H.
  - intros H. split.
    + destruct (resolved_or_not w "GATEWAY_URL") as [Hg | (g & Hg & Hne)].
      * exists "GATEWAY_URL". split; [| exact Hg].
        apply send_voice_otp_no_gateway_url. exact Hg.
      * exists "API_SECRET". split; [| right; exact H].
        apply (send_voice_otp_no_api_secret phone code w g Hg Hne).
        right. exact H.
    + intros g Hg Hne.
      apply (send_voice_otp_no_api_secret phone code w g Hg Hne).
      right. exact H.
  - intros name [-> | ->] H.
    + rewrite send_voice_otp_no_gateway_url by (right; exact H).
      rewrite send_voice_otp_no_gateway_url; [reflexivity |].
      left. apply lookup_delete_eq.
    + set (w' := with_environ (delete "API_SECRET" (environ w)) w).
      assert (environ w' !! "GATEWAY_URL" = environ w !! "GATEWAY_URL") as Hsame.
      { apply lookup_delete_ne. discriminate. }
      assert (unresolved w' "API_SECRET") as Hu'.
      { left. apply lookup_delete_eq. }
      destruct (resolved_or_not w "GATEWAY_URL") as [Hg | (g & Hg & Hne)].
      * rewrite send_voice_otp_no_gateway_url by exact Hg.
        rewrite send_voice_otp_no_gateway_url; [reflexivity |].
        unfold unresolved. rewrite Hsame. exact Hg.
      * rewrite (send_voice_otp_no_api_secret phone code w g Hg Hne)
          by (right; exact H).
        rewrite (send_voice_otp_no_api_secret phone code w' g); auto.
        rewrite Hsame. exact Hg.
Qed.

Lemma send_voice_otp_empty_configuration_witness :
  send_voice_otp "+14155551234" None
      (sample_world (<["GATEWAY_URL" := ""]> sample_environ) []
         (fun _ => queued))
    = (Raise (configuration_error "GATEWAY_URL"),
       sample_world (<["GATEWAY_URL" := ""]> sample_environ) []
         (fun _ => queued)).
Proof.
  apply (send_voice_otp_empty_configuration "+14155551234" None
           (sample_world (<["GATEWAY_URL" := ""]> sample_environ) []
              (fun _ => queued))).
  vm_compute. reflexivity.
Defined.

(** ** [send_voice_otp]: the request *)

Lemma send_voice_otp_configured phone code w g s :
  configured w g s ->
  send_voice_otp phone code w =
    (otp_code <- code_or_generate code ;;
     response <- requests_post (otp_request g s phone otp_code) ;;
     conclude otp_code response) w.
Proof.
  intros (Hg & Hgne & Hs & Hsne).
  unfold send_voice_otp, bind, environ_get. rewrite Hg, Hs.
  destruct g; [congruence |]. destruct s; [congruence |]. reflexivity.
Qed.

Lemma code_or_generate_run code w :
  exists w1,
    code_or_generate code w = (Ret (effective_code code w), w1) /\
    environ w1 = environ w /\ gateway w1 = gateway w /\
    posted w1 = posted w /\ stdout w1 = stdout w.
Proof.
  unfold effective_code.
  destruct code as [[| c code] |]; cbn [code_or_generate];
    rewrite ?generate_otp_run; eexists; (split; [reflexivity |]);
    repeat split.
Qed.

Lemma conclude_pure otp_code r :
  exists res, forall w, conclude otp_code r w = (res, w).
Proof.
  unfold conclude, response_json, bind.
  destruct r as [[|] [j | complaint]]; cbn [ok body negb];
    try (eexists; intros w; reflexivity);
    destruct (loads j); eexists; intros w; reflexivity.
Qed.

Lemma send_voice_otp_run phone code w g s :
  configured w g s ->
  exists w2,
    posted w2
      = (posted w ++ [otp_request g s phone (effective_code code w)])%list /\
    stdout w2 = stdout w /\
    send_voice_otp phone code w =
      match gateway w (otp_request g s phone (effective_code code w)) with
      | Fails c msg => (Raise (Exception c msg), w2)
      | Responds r => conclude (effective_code code w) r w2
      end.
Proof.
  intros Hcfg. rewrite (send_voice_otp_configured phone code w g s Hcfg).
  destruct (code_or_generate_run code w) as (w1 & Hrun & _ & Hgw & Hposted & Hout).
  unfold bind at 1. rewrite Hrun.
  unfold bind, requests_post. rewrite Hgw, Hposted.
  eexists. split; [| split]; cycle 2.
  - destruct (gateway w _); reflexivity.
  - reflexivity.
  - exact Hout.
Qed.

(** C7. With both configuration values resolved, [send_voice_otp] makes
    exactly one request, whatever comes back: a POST to the gateway URL
    followed by /send-otp, with the JSON body of phone, effective code
    and secret, the Content-Type header application/json and a timeout
    of 30 seconds.  Nothing is posted a second time. *)
Theorem send_voice_otp_posts_once phone code w g s :
  configured w g s ->
  exists request,
    posted (send_voice_otp phone code w).2 = (posted w ++ [request])%list /\
    url request = g ++ "/send-otp" /\
    json request = PDict [("phone", PStr phone);
                          ("code", PStr (effective_code code w));
                          ("secret", PStr s)] /\
    headers request = [("Content-Type", "application/json")] /\
    timeout request = 30.
Proof.
  intros Hcfg.
  destruct (send_voice_otp_run phone code w g s Hcfg) as (w2 & Hposted & _ & Hrun).
  exists (otp_request g s phone (effective_code code w)).
  split; [| repeat split].
  rewrite Hrun.
  destruct (gateway w _) as [c msg | r]; [exact Hposted |].
  destruct (conclude_pure (effective_code code w) r) as (res & Hres).
  rewrite Hres. exact Hposted.
Qed.

Lemma sample_configured args reply :
  configured (sample_world sample_environ args reply)
    "https://gw.example" "s3cret".
Proof. repeat split; try discriminate; vm_compute; reflexivity. Defined.

Lemma send_voice_otp_posts_once_witness :
  exists request,
    posted (send_voice_otp "+14155551234" None
              (sample_world sample_environ [] (fun _ => queued))).2
      = [request] /\
    url request = "https://gw.example/send-otp" /\
    json request = PDict [("phone", PStr "+14155551234");
                          ("code", PStr "482913");
                          ("secret", PStr "s3cret")] /\
    headers request = [("Content-Type", "application/json")] /\
    timeout request = 30.
Proof.
  exact (send_voice_otp_posts_once "+14155551234" None
           (sample_world sample_environ [] (fun _ => queued))
           "https://gw.example" "s3cret"
           (sample_configured [] (fun _ => queued))).
Defined.

(** C2. The code [send_voice_otp] sends is the caller's code, as given,
    when there is one and it is not empty; otherwise — no code, or the
    empty string — it is the code a fresh call of [generate_otp]
    returns, six digits long. *)
Theorem send_voice_otp_effective_code phone code w g s :
  configured w g s ->
  (exists request,
     posted (send_voice_otp phone code w).2 = (posted w ++ [request])%list /\
     json request = PDict [("phone", PStr phone);
                           ("code", PStr (effective_code code w));
                           ("secret", PStr s)]) /\
  (forall c, code = Some c -> c <> "" -> effective_code code w = c) /\
  (code = None \/ code = Some "" ->
   exists otp w',
     generate_otp w = (Ret otp, w') /\ effective_code code w = otp /\
     String.length otp = 6%nat /\ all_chars Re.is_digit otp = true).
Proof.
  intros Hcfg. split; [| split].
  - destruct (send_voice_otp_posts_once phone code w g s Hcfg)
      as (request & Hposted & _ & Hjson & _).
    exists request. split; assumption.
  - intros c -> Hne. destruct c; [congruence | reflexivity].
  - intros Hcode.
    destruct (generate_otp_six_digits w)
      as (otp & n & w' & Hgen & Hlen & Hdig & _).
    exists otp, w'. repeat split; try assumption.
    unfold effective_code.
    destruct Hcode as [-> | ->]; cbn [code_or_generate]; rewrite Hgen;
      reflexivity.
Qed.

Lemma send_voice_otp_effective_code_witness :
  effective_code (Some "12ab")
    (sample_world sample_environ [] (fun _ => queued)) = "12ab" /\
  effective_code (Some "")
    (sample_world sample_environ [] (fun _ => queued)) = "482913".
Proof.
  destruct (send_voice_otp_effective_code "+14155551234" (Some "12ab")
              (sample_world sample_environ [] (fun _ => queued))
              "https://gw.example" "s3cret"
              (sample_configured [] (fun _ => queued)))
    as (_ & Hgiven & _).
  destruct (send_voice_otp_effective_code "+14155551234" (Some "")
              (sample_world sample_environ [] (fun _ => queued))
              "https://gw.example" "s3cret"
              (sample_configured [] (fun _ => queued)))
    as (_ & _ & Hfresh).
  split.
  - apply Hgiven; [reflexivity | discriminate].
  - destruct (Hfresh (or_intror eq_refl)) as (otp & w' & Hgen & Heff & _).
    rewrite Heff. rewrite generate_otp_run in Hgen.
    injection Hgen as <- _. vm_compute. reflexivity.
Defined.

(** ** Dictionaries *)

Lemma get_set k k' v d :
  Dict.get k (Dict.set k' v d)
    = if String.eqb k k' then Some v else Dict.get k d.
Proof.
  induction d as [| [k0 v0] d IH]; cbn [Dict.set Dict.get].
  - destruct (String.eqb k k'); reflexivity.
  - destruct (String.eqb_spec k' k0) as [-> | Hne]; cbn [Dict.get].
    + destruct (String.eqb k k0); reflexivity.
    + rewrite IH. destruct (String.eqb_spec k k0) as [-> | Hne'];
        [| reflexivity].
      destruct (String.eqb_spec k0 k'); [congruence | reflexivity].
Qed.

Lemma get_absent k d : ~ In k (Dict.keys d) -> Dict.get k d = None.
Proof.
  induction d as [| [k0 v0] d IH]; cbn [Dict.get Dict.keys map fst];
    [reflexivity |].
  intros Hnot. destruct (String.eqb_spec k k0) as [-> | Hne].
  - exfalso. apply Hnot. left. reflexivity.
  - apply IH. intros Hin. apply Hnot. right. exact Hin.
Qed.

Lemma keys_set k v d :
  Dict.keys (Dict.set k v d)
    = match Dict.get k d with
      | Some _ => Dict.keys d
      | None => (Dict.keys d ++ [k])%list
      end.
Proof.
  induction d as [| [k0 v0] d IH]; cbn [Dict.set Dict.get Dict.keys map fst];
    [reflexivity |].
  destruct (String.eqb_spec k k0) as [-> | Hne]; [reflexivity |].
  cbn [map fst]. fold (Dict.keys (Dict.set k v d)). rewrite IH.
  destruct (Dict.get k d); reflexivity.
Qed.

Lemma get_present k d : In k (Dict.keys d) -> exists v, Dict.get k d = Some v.
Proof.
  induction d as [| [k0 v0] d IH]; cbn [Dict.get Dict.keys map fst];
    [intros [] |].
  intros [-> | Hin].
  - rewrite String.eqb_refl. eauto.
  - destruct (String.eqb k k0); eauto.
Qed.

Lemma NoDup_keys_set k v d :
  NoDup (Dict.keys d) -> NoDup (Dict.keys (Dict.set k v d)).
Proof.
  intros Hd. rewrite keys_set.
  destruct (Dict.get k d) eqn:Hget; [exact Hd |].
  apply NoDup_app. split; [exact Hd |]. split.
  - intros x Hx Hin. apply list_elem_of_In in Hx.
    apply list_elem_of_In in Hin. destruct Hin as [<- | []].
    destruct (get_present k d Hx) as (v' & Hv'). congruence.
  - apply NoDup_singleton.
Qed.

Lemma NoDup_keys_update d items :
  NoDup (Dict.keys d) -> NoDup (Dict.keys (Dict.update d items)).
Proof.
  revert d. induction items as [| [k v] items IH]; intros d Hd;
    [exact Hd |].
  apply IH. apply NoDup_keys_set. exact Hd.
Qed.

Lemma NoDup_keys_loads_object members :
  NoDup (Dict.keys (loads_object members)).
Proof. apply NoDup_keys_update. apply NoDup_nil_2. Qed.

Lemma get_update k d items :
  NoDup (Dict.keys items) ->
  Dict.get k (Dict.update d items)
    = match Dict.get k items with
      | Some v => Some v
      | None => Dict.get k d
      end.
Proof.
  revert d. induction items as [| [k0 v0] items IH]; intros d Hnd;
    [reflexivity |].
  cbn [Dict.keys map fst] in Hnd. apply NoDup_cons in Hnd as [Hnotin Hnd].
  change (Dict.update d ((k0, v0) :: items))
    with (Dict.update (Dict.set k0 v0 d) items).
  rewrite (IH _ Hnd), get_set. cbn [Dict.get].
  destruct (String.eqb_spec k k0) as [-> | Hne]; [| reflexivity].
  rewrite get_absent; [reflexivity |].
  intros Hin. apply Hnotin. apply list_elem_of_In. exact Hin.
Qed.

(** ** [send_voice_otp]: the response *)

Lemma conclude_object otp_code r members w :
  body r = Json (JObject members) ->
  conclude otp_code r w =
    if ok r
    then (Ret (Dict.update [("code", PStr otp_code)] (loads_object members)), w)
    else (Raise (Exception HTTPError
                   ("API Error: "
                    ++ str (default PNone (Dict.get "message" (loads_object members)))
                    ++ " ("
                    ++ str (default PNone (Dict.get "error" (loads_object members)))
                    ++ ")")), w).
Proof.
  intros Hbody. unfold conclude, response_json, bind. rewrite Hbody.
  destruct (ok r); reflexivity.
Qed.

Lemma conclude_not_json otp_code r complaint w :
  body r = NotJson complaint ->
  conclude otp_code r w = (Raise (Exception JSONDecodeError complaint), w).
Proof.
  intros Hbody. unfold conclude, response_json, bind. rewrite Hbody.
  destruct (ok r); reflexivity.
Qed.

Lemma conclude_not_object otp_code r j w :
  body r = Json j -> (forall members, j <> JObject members) ->
  exists c msg,
    c <> HTTPError /\ conclude otp_code r w = (Raise (Exception c msg), w).
Proof.
  intros Hbody Hj. unfold conclude, response_json, bind. rewrite Hbody.
  destruct j; try (exfalso; eapply Hj; reflexivity);
    destruct (ok r); cbn; eexists _, _; (split; [| reflexivity]);
    discriminate.
Qed.

(** C1, as the code has it. When the gateway answers ok with a JSON
    object, [send_voice_otp] returns the dict display
    [{"code": otp_code, **body}]: every field of the body with the
    body's value, and, only when the body has no field [code], a field
    [code] holding the effective code.  A [code] field of the body is
    kept as the body gives it. *)
Theorem send_voice_otp_result_merges_body phone code w g s r members :
  configured w g s ->
  gateway w (otp_request g s phone (effective_code code w)) = Responds r ->
  ok r = true ->
  body r = Json (JObject members) ->
  exists result w',
    send_voice_otp phone code w = (Ret result, w') /\
    result = Dict.update [("code", PStr (effective_code code w))]
               (loads_object members) /\
    forall k,
      Dict.get k result =
        match Dict.get k (loads_object members) with
        | Some v => Some v
        | None => if String.eqb k "code"
                  then Some (PStr (effective_code code w)) else None
        end.
Proof.
  intros Hcfg Hgw Hok Hbody.
  destruct (send_voice_otp_run phone code w g s Hcfg) as (w2 & _ & _ & Hrun).
  rewrite Hgw, (conclude_object _ r members w2 Hbody), Hok in Hrun.
  eexists _, w2. split; [exact Hrun |]. split; [reflexivity |].
  intros k. rewrite get_update by apply NoDup_keys_loads_object.
  reflexivity.
Qed.

Lemma send_voice_otp_result_merges_body_witness :
  exists result w',
    send_voice_otp "+14155551234" (Some "482913")
        (sample_world sample_environ [] (fun _ => queued))
      = (Ret result, w') /\
    result = [("code", PStr "482913"); ("call_id", PStr "abc123");
              ("status", PStr "queued")].
Proof.
  destruct (send_voice_otp_result_merges_body "+14155551234" (Some "482913")
              (sample_world sample_environ [] (fun _ => queued))
              "https://gw.example" "s3cret" _ _
              (sample_configured [] (fun _ => queued))
              eq_refl eq_refl eq_refl)
    as (result & w' & Hrun & Hresult & _).
  exists result, w'. split; [exact Hrun |].
  rewrite Hresult. vm_compute. reflexivity.
Defined.

(** C1 as stated fails: a gateway that answers ok with a body holding
    its own [code] field gets that field back in the result, not the
    code that was sent. *)
Lemma send_voice_otp_body_code_wins :
  exists result w',
    effective_code (Some "482913")
      (sample_world sample_environ [] (fun _ => echoes_code)) = "482913" /\
    send_voice_otp "+14155551234" (Some "482913")
        (sample_world sample_environ [] (fun _ => echoes_code))
      = (Ret result, w') /\
    Dict.get "code" result = Some (PStr "000000") /\
    Dict.get "code" result <> Some (PStr "482913").
Proof.
  eexists _, _. split; [reflexivity |]. split; [vm_compute; reflexivity |].
  split; [reflexivity | discriminate].
Qed.

(** C5, as the code has it. When the gateway answers not ok with a JSON
    object, [send_voice_otp] fails with an [HTTPError] whose text is
    API Error: message (error), the two fields read from the body and an
    absent field written None. *)
Theorem send_voice_otp_api_error phone code w g s r members :
  configured w g s ->
  gateway w (otp_request g s phone (effective_code code w)) = Responds r ->
  ok r = false ->
  body r = Json (JObject members) ->
  exists message error w',
    send_voice_otp phone code w
      = (Raise (Exception HTTPError
                  ("API Error: " ++ message ++ " (" ++ error ++ ")")), w') /\
    message = match Dict.get "message" (loads_object members) with
              | Some v => str v
              | None => "None"
              end /\
    error = match Dict.get "error" (loads_object members) with
            | Some v => str v
            | None => "None"
            end.
Proof.
  intros Hcfg Hgw Hok Hbody.
  destruct (send_voice_otp_run phone code w g s Hcfg) as (w2 & _ & _ & Hrun).
  rewrite Hgw, (conclude_object _ r members w2 Hbody), Hok in Hrun.
  eexists _, _, w2. split; [exact Hrun |]. clear Hrun.
  split;
    [destruct (Dict.get "message" _) | destruct (Dict.get "error" _)];
    reflexivity.
Qed.

Lemma send_voice_otp_api_error_witness :
  exists w',
    send_voice_otp "+14155551234" None
        (sample_world sample_environ [] (fun _ => auth_failed))
      = (Raise (Exception HTTPError "API Error: invalid secret (AUTH_FAILED)"),
         w').
Proof.
  destruct (send_voice_otp_api_error "+14155551234" None
              (sample_world sample_environ [] (fun _ => auth_failed))
              "https://gw.example" "s3cret" _ _
              (sample_configured [] (fun _ => auth_failed))
              eq_refl eq_refl eq_refl)
    as (message & error & w' & Hrun & Hmessage & Herror).
  exists w'. rewrite Hrun, Hmessage, Herror. reflexivity.
Defined.

(** C5 as stated fails: a response that is not ok and whose body is not
    JSON makes the call fail with the decoder's error, whose text is
    not of the form API Error: message (error). *)
Lemma send_voice_otp_failure_body_not_json :
  exists e w',
    send_voice_otp "+14155551234" None
        (sample_world sample_environ [] (fun _ => bad_gateway))
      = (Raise e, w') /\
    e = Exception JSONDecodeError "Expecting value: line 1 column 1 (char 0)" /\
    forall message error,
      exn_str e <> "API Error: " ++ message ++ " (" ++ error ++ ")".
Proof.
  eexists _, _. split; [vm_compute; reflexivity |]. split; [reflexivity |].
  intros message error. cbn. discriminate.
Qed.

(** C10. When the gateway answers not ok and the body is not JSON,
    [send_voice_otp] fails with the decoder's own error; the
    API Error [HTTPError] is raised exactly when the body is a JSON
    object. *)
Theorem send_voice_otp_undecodable_failure phone code w g s r :
  configured w g s ->
  gateway w (otp_request g s phone (effective_code code w)) = Responds r ->
  ok r = false ->
  (forall complaint, body r = NotJson complaint ->
     exists w',
       send_voice_otp phone code w
         = (Raise (Exception JSONDecodeError complaint), w')) /\
  ((exists text w',
      send_voice_otp phone code w = (Raise (Exception HTTPError text), w'))
   <-> exists members, body r = Json (JObject members)).
Proof.
  intros Hcfg Hgw Hok.
  destruct (send_voice_otp_run phone code w g s Hcfg) as (w2 & _ & _ & Hrun).
  rewrite Hgw in Hrun. split.
  - intros complaint Hbody.
    rewrite (conclude_not_json _ r complaint w2 Hbody) in Hrun.
    exists w2. exact Hrun.
  - split.
    + intros (text & w' & Hraise). rewrite Hraise in Hrun.
      destruct (body r) as [j | complaint] eqn:Hbody.
      * destruct j; try (exists members; reflexivity); exfalso;
          (edestruct (conclude_not_object (effective_code code w) r _ w2 Hbody)
             as (c & msg & Hc & Hconclude); [discriminate |]);
          rewrite Hconclude in Hrun; congruence.
      * rewrite (conclude_not_json _ r complaint w2 Hbody) in Hrun.
        discriminate.
    + intros (members & Hbody).
      rewrite (conclude_object _ r members w2 Hbody), Hok in Hrun.
      eexists _, w2. exact Hrun.
Qed.

Lemma send_voice_otp_undecodable_failure_witness :
  exists w',
    send_voice_otp "+14155551234" None
        (sample_world sample_environ [] (fun _ => bad_gateway))
      = (Raise (Exception JSONDecodeError
                  "Expecting value: line 1 column 1 (char 0)"), w').
Proof.
  destruct (send_voice_otp_undecodable_failure "+14155551234" None
              (sample_world sample_environ [] (fun _ => bad_gateway))
              "https://gw.example" "s3cret" _
              (sample_configured [] (fun _ => bad_gateway))
              eq_refl eq_refl)
    as (Hdecode & _).
  exact (Hdecode _ eq_refl).
Defined.

(** ** The phone pattern *)

Lemma append_nil (b : string) : "" ++ b = b.
Proof. reflexivity. Qed.

Lemma append_cons c (a b : string) : String c a ++ b = String c (a ++ b).
Proof. reflexivity. Qed.

Lemma length_append (a b : string) :
  String.length (a ++ b) = (String.length a + String.length b)%nat.
Proof.
  induction a as [| c a IH]; [reflexivity |].
  rewrite append_cons. cbn [String.length]. rewrite IH. reflexivity.
Qed.

Lemma all_chars_append p (a b : string) :
  all_chars p (a ++ b) = all_chars p a && all_chars p b.
Proof.
  induction a as [| c a IH]; [reflexivity |].
  rewrite append_cons. cbn [all_chars]. rewrite IH. apply andb_assoc.
Qed.

Lemma append_assoc (a b c : string) : (a ++ b) ++ c = a ++ (b ++ c).
Proof.
  induction a as [| x a IH]; [reflexivity |].
  rewrite !append_cons, IH. reflexivity.
Qed.

Lemma append_empty_r (a : string) : a ++ "" = a.
Proof.
  induction a as [| x a IH]; [reflexivity |].
  rewrite append_cons, IH. reflexivity.
Qed.

Lemma times_one p n k pos s :
  Re.times (Re.one p) n k pos s = true <->
  exists ds rest,
    s = ds ++ rest /\ String.length ds = n /\ all_chars p ds = true /\
    k (n + pos)%nat rest = true.
Proof.
  revert pos s. induction n as [| n IH]; intros pos s; cbn [Re.times].
  - split.
    + intros Hk. exists "", s. repeat split. exact Hk.
    + intros (ds & rest & -> & Hlen & _ & Hk).
      destruct ds; [exact Hk | discriminate].
  - unfold Re.one at 1. destruct s as [| c s].
    + split; [discriminate |].
      intros (ds & rest & Hs & Hlen & _). destruct ds; discriminate.
    + rewrite andb_true_iff, IH. split.
      * intros (Hc & ds & rest & -> & Hlen & Hds & Hk).
        exists (String c ds), rest. cbn. rewrite Hc, Hds, Hlen.
        repeat split. rewrite Nat.add_succ_r in Hk. exact Hk.
      * intros (ds & rest & Hs & Hlen & Hds & Hk).
        destruct ds as [| c' ds]; [discriminate |].
        cbn in Hs, Hlen, Hds. injection Hs as <- ->. injection Hlen as Hlen.
        apply andb_true_iff in Hds as [Hc Hds]. split; [exact Hc |].
        exists ds, rest. repeat split; try assumption.
        rewrite Nat.add_succ_r. exact Hk.
Qed.

Lemma upto_one p n k pos s :
  Re.upto (Re.one p) n k pos s = true <->
  exists ds rest,
    s = ds ++ rest /\ (String.length ds <= n)%nat /\ all_chars p ds = true /\
    k (String.length ds + pos)%nat rest = true.
Proof.
  revert pos s. induction n as [| n IH]; intros pos s; cbn [Re.upto].
  - split.
    + intros Hk. exists "", s. repeat split; [cbn; lia | exact Hk].
    + intros (ds & rest & -> & Hlen & _ & Hk).
      destruct ds; [exact Hk | cbn in Hlen; lia].
  - rewrite orb_true_iff. split.
    + intros [Hone | Hk].
      * unfold Re.one in Hone. destruct s as [| c s]; [discriminate |].
        apply andb_true_iff in Hone as [Hc Hrest].
        apply IH in Hrest as (ds & rest & -> & Hlen & Hds & Hk).
        exists (String c ds), rest. cbn. rewrite Hc, Hds.
        repeat split; [lia |]. rewrite Nat.add_succ_r in Hk. exact Hk.
      * exists "", s. repeat split; [cbn; lia | exact Hk].
    + intros (ds & rest & -> & Hlen & Hds & Hk).
      destruct ds as [| c ds]; [right; exact Hk | left].
      rewrite append_cons. cbn [String.length all_chars] in Hlen, Hds, Hk.
      apply andb_true_iff in Hds as [Hc Hds].
      cbn [Re.one]. rewrite Hc. cbn [andb]. apply IH. exists ds, rest.
      repeat split; try assumption; [lia |].
      rewrite Nat.add_succ_r. exact Hk.
Qed.

Lemma at_end_iff s : Re.at_end s = true <-> s = "" \/ s = newline.
Proof.
  unfold Re.at_end, newline. destruct s as [| c [| c' s]].
  - split; auto.
  - rewrite Ascii.eqb_eq. split.
    + intros ->. right. reflexivity.
    + intros [H | H]; [discriminate | congruence].
  - split; [discriminate |]. intros [H | H]; discriminate.
Qed.

Lemma split_at n (s : string) :
  (n <= String.length s)%nat ->
  exists a b, s = a ++ b /\ String.length a = n.
Proof.
  revert s. induction n as [| n IH]; intros s Hn.
  - exists "", s. split; reflexivity.
  - destruct s as [| c s]; cbn in Hn; [lia |].
    destruct (IH s) as (a & b & -> & Hlen); [lia |].
    exists (String c a), b. cbn. rewrite Hlen. split; reflexivity.
Qed.

Lemma phone_pattern_match s :
  Re.match_ phone_pattern s = true <->
  exists first more tail,
    s = String "+" (String first (more ++ tail)) /\
    Re.in_range "1" "9" first = true /\
    all_chars Re.is_digit more = true /\
    (9 <= String.length more <= 14)%nat /\
    (tail = "" \/ tail = newline).
Proof.
  unfold Re.match_, phone_pattern. cbn [Re.matches Nat.sub].
  cbn [Nat.eqb andb]. split.
  - intros Hm. unfold Re.one at 1 in Hm.
    destruct s as [| plus s]; [discriminate |].
    apply andb_true_iff in Hm as [Hplus Hm]. apply Ascii.eqb_eq in Hplus.
    unfold Re.one at 1 in Hm. destruct s as [| first s]; [discriminate |].
    apply andb_true_iff in Hm as [Hfirst Hm].
    apply times_one in Hm as (ds1 & rest1 & -> & Hlen1 & Hds1 & Hm).
    apply upto_one in Hm as (ds2 & rest2 & -> & Hlen2 & Hds2 & Hend).
    rewrite andb_true_r in Hend. apply at_end_iff in Hend.
    exists first, (ds1 ++ ds2), rest2. subst plus.
    rewrite append_assoc, all_chars_append, length_append, Hds1, Hds2.
    repeat split; try assumption; lia.
  - intros (first & more & tail & -> & Hfirst & Hmore & Hlen & Htail).
    cbn [Re.one]. rewrite Hfirst. cbn [Ascii.eqb Bool.eqb andb].
    destruct (split_at 9 more) as (ds1 & ds2 & -> & Hlen1); [lia |].
    rewrite all_chars_append in Hmore.
    apply andb_true_iff in Hmore as [Hds1 Hds2].
    rewrite length_append in Hlen. rewrite append_assoc.
    apply times_one. exists ds1, (ds2 ++ tail).
    repeat split; try assumption.
    apply upto_one. exists ds2, tail.
    repeat split; try assumption; [lia |].
    rewrite andb_true_r. apply at_end_iff. exact Htail.
Qed.

Lemma e164_iff s :
  e164 s = true <->
  exists first more,
    s = String "+" (String first more) /\
    Re.in_range "1" "9" first = true /\
    all_chars Re.is_digit more = true /\
    (9 <= String.length more <= 14)%nat.
Proof.
  unfold e164. split.
  - destruct s as [| plus [| first more]]; try discriminate.
    rewrite !andb_true_iff, Ascii.eqb_eq, !Nat.leb_le.
    intros ((((-> & Hfirst) & Hmore) & Hlo) & Hhi).
    exists first, more. repeat split; assumption.
  - intros (first & more & -> & Hfirst & Hmore & Hlo & Hhi).
    rewrite Hfirst, Hmore. cbn [Ascii.eqb Bool.eqb andb].
    rewrite !andb_true_iff, !Nat.leb_le. repeat split; assumption.
Qed.

(** The check of [main] passes a phone exactly when it has the
    specified format, or has it once one final newline is dropped. *)
Lemma phone_pattern_accepts s :
  Re.match_ phone_pattern s = true <->
  e164 s = true \/ exists p, s = p ++ newline /\ e164 p = true.
Proof.
  rewrite phone_pattern_match. split.
  - intros (first & more & tail & -> & Hfirst & Hmore & Hlen & [-> | ->]).
    + left. rewrite append_empty_r. apply e164_iff.
      exists first, more. repeat split; try assumption; lia.
    + right. exists (String "+" (String first more)). split; [reflexivity |].
      apply e164_iff. exists first, more. repeat split; try assumption; lia.
  - intros [He | (p & -> & He)];
      apply e164_iff in He as (first & more & -> & Hfirst & Hmore & Hlen).
    + exists first, more, "". rewrite append_empty_r.
      repeat split; try assumption; try lia. left. reflexivity.
    + exists first, more, newline.
      repeat split; try assumption; try lia. right. reflexivity.
Qed.

(** ** [main] *)

Lemma conclude_raises otp_code r w e w' :
  conclude otp_code r w = (Raise e, w') -> exists c msg, e = Exception c msg.
Proof.
  unfold conclude, response_json, bind.
  destruct r as [[|] [j | complaint]]; cbn [ok body negb];
    try destruct (loads j); cbn; intros H; inversion H; eauto.
Qed.

Lemma send_voice_otp_raises phone code w e w' :
  send_voice_otp phone code w = (Raise e, w') ->
  exists c msg, e = Exception c msg.
Proof.
  destruct (resolved_or_not w "GATEWAY_URL") as [Hg | (g & Hg & Hgne)].
  { rewrite send_voice_otp_no_gateway_url by exact Hg.
    intros H. inversion H. unfold configuration_error. eauto. }
  destruct (resolved_or_not w "API_SECRET") as [Hs | (s & Hs & Hsne)].
  { rewrite (send_voice_otp_no_api_secret phone code w g Hg Hgne Hs).
    intros H. inversion H. unfold configuration_error. eauto. }
  destruct (send_voice_otp_run phone code w g s) as (w2 & _ & _ & Hrun).
  { repeat split; assumption. }
  rewrite Hrun. destruct (gateway w _) as [c msg | r].
  - intros H. inversion H. eauto.
  - apply conclude_raises.
Qed.

Lemma send_voice_otp_stdout phone code w :
  stdout (send_voice_otp phone code w).2 = stdout w.
Proof.
  destruct (resolved_or_not w "GATEWAY_URL") as [Hg | (g & Hg & Hgne)].
  { rewrite send_voice_otp_no_gateway_url by exact Hg. reflexivity. }
  destruct (resolved_or_not w "API_SECRET") as [Hs | (s & Hs & Hsne)].
  { rewrite (send_voice_otp_no_api_secret phone code w g Hg Hgne Hs).
    reflexivity. }
  destruct (send_voice_otp_run phone code w g s) as (w2 & _ & Hout & Hrun).
  { repeat split; assumption. }
  rewrite Hrun. destruct (gateway w _) as [c msg | r]; [exact Hout |].
  destruct (conclude_pure (effective_code code w) r) as (res & Hres).
  rewrite Hres. exact Hout.
Qed.

Lemma run_usage (w : world) :
  (length (argv w) < 2)%nat ->
  run w = (1, write "Example: python python-requests.py +14155551234"
                (write "Usage: python python-requests.py <phone> [code]" w)).
Proof.
  intros Hlen. apply Nat.ltb_lt in Hlen.
  unfold run, main, bind at 1, sys_argv. rewrite Hlen. reflexivity.
Qed.

Lemma run_format_error (w : world) :
  (2 <= length (argv w))%nat ->
  Re.match_ phone_pattern (phone_arg w) = false ->
  run w = (1, write format_error w).
Proof.
  intros Hlen Hno. apply Nat.ltb_ge in Hlen.
  unfold run, main, bind at 1, sys_argv. rewrite Hlen.
  fold (phone_arg w). rewrite Hno. reflexivity.
Qed.

Lemma send_voice_otp_stdout_rejects phone code w :
  stdout_rejects (send_voice_otp phone code w).2 = stdout_rejects w.
Proof.
  destruct (resolved_or_not w "GATEWAY_URL") as [Hg | (g & Hg & Hgne)].
  { rewrite send_voice_otp_no_gateway_url by exact Hg. reflexivity. }
  destruct (resolved_or_not w "API_SECRET") as [Hs | (s & Hs & Hsne)].
  { rewrite (send_voice_otp_no_api_secret phone code w g Hg Hgne Hs).
    reflexivity. }
  rewrite (send_voice_otp_configured phone code w g s)
    by (repeat split; assumption).
  assert (forall otp_code w1,
            stdout_rejects
              (bind (requests_post (otp_request g s phone otp_code))
                 (fun response => conclude otp_code response) w1).2
            = stdout_rejects w1) as Hpost.
  { intros otp_code w1. unfold bind, requests_post.
    destruct (gateway w1 _) as [c msg | r]; [reflexivity |].
    destruct (conclude_pure otp_code r) as (res & Hres). rewrite Hres.
    reflexivity. }
  destruct code as [[| c code] |]; cbn [code_or_generate];
    unfold bind at 1; rewrite ?generate_otp_run; unfold ret;
    rewrite Hpost; reflexivity.
Qed.

Lemma ascii_only_append (a b : string) :
  ascii_only (a ++ b) = ascii_only a && ascii_only b.
Proof.
  induction a as [| c a IH]; [reflexivity |].
  rewrite append_cons. cbn [ascii_only]. rewrite IH. apply andb_assoc.
Qed.

Lemma in_range_ascii lo hi c :
  (N_of_ascii hi < 128)%N -> Re.in_range lo hi c = true ->
  (N_of_ascii c <? 128)%N = true.
Proof.
  unfold Re.in_range. intros Hhi Hin.
  apply andb_true_iff in Hin as [_ Hle]. apply N.leb_le in Hle.
  apply N.ltb_lt. lia.
Qed.

Lemma digits_ascii (s : string) :
  all_chars Re.is_digit s = true -> ascii_only s = true.
Proof.
  induction s as [| c s IH]; [reflexivity |]. cbn [all_chars ascii_only].
  intros H. apply andb_true_iff in H as [Hc Hs].
  rewrite (in_range_ascii "0" "9" c), IH; auto. reflexivity.
Qed.

Lemma accepted_phone_ascii (phone : string) :
  Re.match_ phone_pattern phone = true -> ascii_only phone = true.
Proof.
  intros Hm.
  apply phone_pattern_match in Hm
    as (first & more & tail & -> & Hfirst & Hmore & _ & Htail).
  cbn [ascii_only]. rewrite ascii_only_append.
  rewrite (in_range_ascii "1" "9" first), (digits_ascii more); auto;
    [| reflexivity].
  destruct Htail as [-> | ->]; reflexivity.
Qed.

Lemma print_writable line w :
  writable w line = true -> print line w = (Ret tt, write line w).
Proof.
  unfold writable, print. destruct (ascii_only line); [reflexivity |].
  destruct (stdout_rejects w line); [discriminate | reflexivity].
Qed.

Lemma print_unwritable line w :
  writable w line = false ->
  exists complaint,
    stdout_rejects w line = Some complaint /\
    print line w = (Raise (Exception UnicodeEncodeError complaint), w).
Proof.
  unfold writable, print. destruct (ascii_only line); [discriminate |].
  destruct (stdout_rejects w line) as [complaint |]; [| discriminate].
  intros _. exists complaint. split; reflexivity.
Qed.


Lemma announced_written (w : world) :
  Re.match_ phone_pattern (phone_arg w) = true ->
  print ("Sending OTP to " ++ phone_arg w ++ "...") w
    = (Ret tt, announced w) /\
  announced w = write ("Sending OTP to " ++ phone_arg w ++ "...") w.
Proof.
  intros Hyes.
  assert (writable w ("Sending OTP to " ++ phone_arg w ++ "...") = true)
    as Hw.
  { unfold writable. rewrite !ascii_only_append.
    rewrite (accepted_phone_ascii _ Hyes). reflexivity. }
  unfold announced. rewrite (print_writable _ w Hw). split; reflexivity.
Qed.

Lemma run_send (w : world) :
  (2 <= length (argv w))%nat ->
  Re.match_ phone_pattern (phone_arg w) = true ->
  run w =
    match send_voice_otp (phone_arg w) (code_arg w) (announced w) with
    | (Ret result, w2) =>
        match print ("Success: " ++ str (PDict result)) w2 with
        | (Ret _, w3) => (0, w3)
        | (Raise e, w3) => (1, (print ("Failed: " ++ exn_str e) w3).2)
        end
    | (Raise e, w2) => (1, (print ("Failed: " ++ exn_str e) w2).2)
    end.
Proof.
  intros Hlen Hyes. apply Nat.ltb_ge in Hlen.
  destruct (announced_written w Hyes) as [Hsending _].
  assert (forall line w0,
            (let (r, w') := (print line ;; sys_exit 1) w0 in
             (exit_status r, w')) = (1, (print line w0).2)) as Hhandler.
  { intros line w0. unfold bind.
    destruct (print line w0) as [[[] | e] w'] eqn:Hp; [reflexivity |].
    unfold print in Hp. destruct (ascii_only line); [discriminate |].
    destruct (stdout_rejects w0 line); [| discriminate].
    injection Hp as <- <-. reflexivity. }
  unfold run, main, bind at 1, sys_argv. rewrite Hlen.
  fold (phone_arg w) (code_arg w). rewrite Hyes. cbn [negb].
  unfold try_except, bind at 1. rewrite Hsending. unfold bind at 1.
  destruct (send_voice_otp _ _ _) as [[result | e] w2] eqn:Hsend.
  - destruct (print ("Success: " ++ str (PDict result)) w2)
      as [[[] | e] w3] eqn:Hp; [reflexivity |].
    unfold print in Hp. destruct (ascii_only _); [discriminate |].
    destruct (stdout_rejects w2 _); [| discriminate].
    injection Hp as <- <-. apply Hhandler.
  - destruct (send_voice_otp_raises _ _ _ _ _ Hsend) as (c & msg & ->).
    apply Hhandler.
Qed.

(** C8, as the code has it. The process ends with status 0 exactly
    when the send operation was called and returned and the Success
    line reached standard output.  It ends with status 1 in each
    failure case: no phone argument (the two usage lines are printed),
    a phone the pattern check of [main] rejects (the format error is
    printed), an exception raised by the send operation (Failed:
    followed by the error's text is printed when standard output can
    write that line), and a Success line that standard output cannot
    write. *)
Theorem run_exit_status (w : world) :
  ((length (argv w) < 2)%nat ->
   (run w).1 = 1 /\
   stdout (run w).2 = (stdout w ++ usage)%list /\
   posted (run w).2 = posted w) /\
  ((2 <= length (argv w))%nat ->
   Re.match_ phone_pattern (phone_arg w) = false ->
   (run w).1 = 1 /\
   stdout (run w).2 = (stdout w ++ [format_error])%list /\
   posted (run w).2 = posted w) /\
  ((2 <= length (argv w))%nat ->
   Re.match_ phone_pattern (phone_arg w) = true ->
   forall result w2,
     send_voice_otp (phone_arg w) (code_arg w) (announced w)
       = (Ret result, w2) ->
     (writable w ("Success: " ++ str (PDict result)) = true ->
      (run w).1 = 0 /\
      stdout (run w).2
        = (stdout w ++ [("Sending OTP to " ++ phone_arg w ++ "...")%string;
                        ("Success: " ++ str (PDict result))%string])%list) /\
     (writable w ("Success: " ++ str (PDict result)) = false ->
      (run w).1 = 1)) /\
  ((2 <= length (argv w))%nat ->
   Re.match_ phone_pattern (phone_arg w) = true ->
   forall e w2,
     send_voice_otp (phone_arg w) (code_arg w) (announced w)
       = (Raise e, w2) ->
     (run w).1 = 1 /\
     (writable w ("Failed: " ++ exn_str e) = true ->
      stdout (run w).2
        = (stdout w ++ [("Sending OTP to " ++ phone_arg w ++ "...")%string;
                        ("Failed: " ++ exn_str e)%string])%list)) /\
  ((run w).1 = 0 <->
   (2 <= length (argv w))%nat /\
   Re.match_ phone_pattern (phone_arg w) = true /\
   exists result w2,
     send_voice_otp (phone_arg w) (code_arg w) (announced w)
       = (Ret result, w2) /\
     writable w ("Success: " ++ str (PDict result)) = true) /\
  ((run w).1 = 0 \/ (run w).1 = 1).
Proof.
  assert (forall r w2,
            Re.match_ phone_pattern (phone_arg w) = true ->
            send_voice_otp (phone_arg w) (code_arg w) (announced w) = (r, w2) ->
            stdout w2
              = (stdout w
                 ++ [("Sending OTP to " ++ phone_arg w ++ "...")%string])%list
            /\ forall line, writable w2 line = writable w line)
    as Hafter.
  { intros r w2 Hyes Hsend.
    destruct (announced_written w Hyes) as [_ Hann].
    pose proof (send_voice_otp_stdout (phone_arg w) (code_arg w) (announced w))
      as Hout.
    pose proof (send_voice_otp_stdout_rejects (phone_arg w) (code_arg w)
                  (announced w)) as Hrej.
    rewrite Hsend in Hout, Hrej. cbn [snd] in Hout, Hrej.
    rewrite Hann in Hout, Hrej. split; [exact Hout |].
    intros line. unfold writable. rewrite Hrej. reflexivity. }
  assert (forall result w2,
            Re.match_ phone_pattern (phone_arg w) = true ->
            send_voice_otp (phone_arg w) (code_arg w) (announced w)
              = (Ret result, w2) ->
            writable w ("Success: " ++ str (PDict result)) = false ->
            exists e w3,
              print ("Success: " ++ str (PDict result)) w2 = (Raise e, w3))
    as Hfailed.
  { intros result w2 Hyes Hsend Hw.
    destruct (Hafter _ _ Hyes Hsend) as [_ Hsame]. rewrite <- Hsame in Hw.
    destruct (print_unwritable _ w2 Hw) as (complaint & _ & Hp).
    eexists _, _. exact Hp. }
  split; [| split; [| split; [| split; [| split]]]].
  - intros Hlen. rewrite (run_usage w Hlen). repeat split.
    cbn. rewrite <- app_assoc. reflexivity.
  - intros Hlen Hno. rewrite (run_format_error w Hlen Hno). repeat split.
  - intros Hlen Hyes result w2 Hsend.
    destruct (Hafter _ _ Hyes Hsend) as [Hout Hsame]. split.
    + intros Hw. rewrite <- Hsame in Hw.
      rewrite (run_send w Hlen Hyes), Hsend, (print_writable _ w2 Hw).
      split; [reflexivity |]. cbn [snd write stdout].
      rewrite Hout, <- app_assoc. reflexivity.
    + intros Hw. destruct (Hfailed _ _ Hyes Hsend Hw) as (e & w3 & Hp).
      rewrite (run_send w Hlen Hyes), Hsend, Hp. reflexivity.
  - intros Hlen Hyes e w2 Hsend.
    destruct (Hafter _ _ Hyes Hsend) as [Hout Hsame].
    rewrite (run_send w Hlen Hyes), Hsend. split; [reflexivity |].
    intros Hw. rewrite <- Hsame in Hw. rewrite (print_writable _ w2 Hw).
    cbn [snd write stdout]. rewrite Hout, <- app_assoc. reflexivity.
  - destruct (Nat.lt_ge_cases (length (argv w)) 2) as [Hlen | Hlen].
    { rewrite (run_usage w Hlen). split; [discriminate | lia]. }
    destruct (Re.match_ phone_pattern (phone_arg w)) eqn:Hyes.
    2: { rewrite (run_format_error w Hlen Hyes).
         split; [discriminate |]. intros (_ & H & _). discriminate. }
    rewrite (run_send w Hlen Hyes).
    destruct (send_voice_otp _ _ _) as [[result | e] w2] eqn:Hsend.
    + destruct (Hafter _ _ eq_refl eq_refl) as [_ Hsame].
      destruct (writable w ("Success: " ++ str (PDict result))) eqn:Hw.
      * pose proof Hw as Hw2. rewrite <- Hsame in Hw2.
        rewrite (print_writable _ w2 Hw2). split; [| reflexivity].
        intros _. repeat split; try assumption.
        exists result, w2. split; [reflexivity | exact Hw].
      * destruct (Hfailed _ _ eq_refl eq_refl Hw) as (e & w3 & Hp).
        rewrite Hp. split; [discriminate |].
        intros (_ & _ & result' & w2' & Heq & Hw').
        injection Heq as <- <-. congruence.
    + split; [discriminate |].
      intros (_ & _ & result & w3 & H & _). discriminate.
  - destruct (Nat.lt_ge_cases (length (argv w)) 2) as [Hlen | Hlen].
    { rewrite (run_usage w Hlen). right. reflexivity. }
    destruct (Re.match_ phone_pattern (phone_arg w)) eqn:Hyes.
    2: { rewrite (run_format_error w Hlen Hyes). right. reflexivity. }
    rewrite (run_send w Hlen Hyes).
    destruct (send_voice_otp _ _ _) as [[result | e] w2]; [| auto].
    destruct (print _ w2) as [[[] | e] w3]; auto.
Qed.

Lemma run_exit_status_witness :
  (run (sample_world sample_environ [] (fun _ => queued))).1 = 1 /\
  (run (sample_world sample_environ ["python-requests.py"; "14155551234"]
          (fun _ => queued))).1 = 1 /\
  (run (sample_world sample_environ ["python-requests.py"; "+14155551234"]
          (fun _ => queued))).1 = 0 /\
  (run (sample_world sample_environ ["python-requests.py"; "+14155551234"]
          (fun _ => auth_failed))).1 = 1 /\
  (run accented_world).1 = 1.
Proof.
  split; [| split; [| split; [| split]]].
  - destruct (run_exit_status
                (sample_world sample_environ [] (fun _ => queued)))
      as (Husage & _).
    destruct Husage as [Hstatus _]; [cbn; lia | exact Hstatus].
  - destruct (run_exit_status
                (sample_world sample_environ
                   ["python-requests.py"; "14155551234"] (fun _ => queued)))
      as (_ & Hformat & _).
    destruct Hformat as [Hstatus _];
      [cbn; lia | vm_compute; reflexivity | exact Hstatus].
  - destruct (run_exit_status
                (sample_world sample_environ
                   ["python-requests.py"; "+14155551234"] (fun _ => queued)))
      as (_ & _ & Hsuccess & _).
    edestruct Hsuccess as [Hwritten _];
      [cbn; lia | vm_compute; reflexivity | |].
    + apply injective_projections; [vm_compute; reflexivity | reflexivity].
    + destruct Hwritten as [Hstatus _];
        [vm_compute; reflexivity | exact Hstatus].
  - destruct (run_exit_status
                (sample_world sample_environ
                   ["python-requests.py"; "+14155551234"]
                   (fun _ => auth_failed)))
      as (_ & _ & _ & Hfailure & _).
    edestruct Hfailure as [Hstatus _];
      [cbn; lia | vm_compute; reflexivity | | exact Hstatus].
    apply injective_projections; [vm_compute; reflexivity | reflexivity].
  - destruct (run_exit_status accented_world) as (_ & _ & Hsuccess & _).
    edestruct Hsuccess as [_ Hunwritten];
      [cbn; lia | vm_compute; reflexivity | |].
    + apply injective_projections; [vm_compute; reflexivity | reflexivity].
    + apply Hunwritten. vm_compute. reflexivity.
Defined.

(** C8 as stated fails: with a standard output that cannot write the
    accented letter of the gateway's answer, the send operation
    succeeds, yet printing the Success line raises inside the try
    block, Failed: is printed and the process ends with status 1. *)
Lemma run_success_line_not_written :
  (exists result w2,
     send_voice_otp (phone_arg accented_world) (code_arg accented_world)
       (announced accented_world) = (Ret result, w2)) /\
  (run accented_world).1 = 1 /\
  stdout (run accented_world).2
    = ["Sending OTP to +14155551234...";
       "Failed: 'ascii' codec can't encode character '\xe9' in position 44: ordinal not in range(128)"].
Proof.
  split; [| split; vm_compute; reflexivity].
  eexists _, _.
  apply injective_projections; [vm_compute; reflexivity | reflexivity].
Qed.

(** C4, evaluated where the code departs from it. The phone
    +14155551234 followed by a newline does not have the specified
    format, yet [main] accepts it: no format error is printed, the
    number is posted to the gateway with its newline, and the process
    ends with status 0. *)
Theorem main_accepts_trailing_newline :
  e164 newline_phone = false /\
  Re.match_ phone_pattern newline_phone = true /\
  (run newline_world).1 = 0 /\
  posted (run newline_world).2
    = [otp_request "https://gw.example" "s3cret" newline_phone "482913"] /\
  stdout (run newline_world).2
    = ["Sending OTP to " ++ newline_phone ++ "...";
       "Success: {'code': '482913', 'call_id': 'abc123', 'status': 'queued'}"].
Proof. vm_compute. repeat split. Qed.


(** ** More on [send_voice_otp] *)

(** What a configured call leaves behind, whatever the gateway does:
    the request is appended to the log, one draw is taken exactly when
    a code had to be generated, and the environment, the arguments and
    the printed lines are untouched. *)
Theorem send_voice_otp_frame phone code w g s :
  configured w g s ->
  (send_voice_otp phone code w).2
    = after_send w (generates code)
        (otp_request g s phone (effective_code code w)).
Proof.
  intros Hcfg. rewrite (send_voice_otp_configured phone code w g s Hcfg).
  assert (forall otp_code w1,
            (bind (requests_post (otp_request g s phone otp_code))
               (fun response => conclude otp_code response) w1).2
            = {| environ := environ w1; argv := argv w1; random := random w1;
                 drawn := drawn w1; gateway := gateway w1;
                 posted := posted w1 ++ [otp_request g s phone otp_code];
                 stdout := stdout w1;
     stdout_rejects := stdout_rejects w1 |}) as Hpost.
  { intros otp_code w1. unfold bind, requests_post.
    destruct (gateway w1 _) as [c msg | r]; [reflexivity |].
    destruct (conclude_pure otp_code r) as (res & Hres). rewrite Hres.
    reflexivity. }
  unfold effective_code.
  destruct code as [[| c code] |]; cbn [code_or_generate generates];
    unfold bind at 1; rewrite ?generate_otp_run; unfold ret;
    cbn [fst]; rewrite Hpost; reflexivity.
Qed.

Lemma send_voice_otp_frame_witness :
  drawn (send_voice_otp "+14155551234" (Some "")
           (sample_world sample_environ [] (fun _ => unreachable))).2 = 1%nat /\
  drawn (send_voice_otp "+14155551234" (Some "2468")
           (sample_world sample_environ [] (fun _ => unreachable))).2 = 0%nat.
Proof.
  split.
  - rewrite (send_voice_otp_frame "+14155551234" (Some "")
               (sample_world sample_environ [] (fun _ => unreachable))
               "https://gw.example" "s3cret"
               (sample_configured [] (fun _ => unreachable))).
    reflexivity.
  - rewrite (send_voice_otp_frame "+14155551234" (Some "2468")
               (sample_world sample_environ [] (fun _ => unreachable))
               "https://gw.example" "s3cret"
               (sample_configured [] (fun _ => unreachable))).
    reflexivity.
Defined.

(** An exception of the transport (unreachable gateway, timeout) leaves
    [send_voice_otp] as it is, class and text unchanged, after the one
    request was made. *)
Theorem send_voice_otp_transport_failure phone code w g s c msg :
  configured w g s ->
  gateway w (otp_request g s phone (effective_code code w)) = Fails c msg ->
  exists w',
    send_voice_otp phone code w = (Raise (Exception c msg), w') /\
    posted w'
      = (posted w ++ [otp_request g s phone (effective_code code w)])%list.
Proof.
  intros Hcfg Hgw.
  destruct (send_voice_otp_run phone code w g s Hcfg) as (w2 & Hposted & _ & Hrun).
  rewrite Hgw in Hrun. exists w2. split; assumption.
Qed.

Lemma send_voice_otp_transport_failure_witness :
  exists w',
    send_voice_otp "+14155551234" None
        (sample_world sample_environ [] (fun _ => unreachable))
      = (Raise (Exception ConnectionError "Connection refused"), w').
Proof.
  destruct (send_voice_otp_transport_failure "+14155551234" None
              (sample_world sample_environ [] (fun _ => unreachable))
              "https://gw.example" "s3cret" _ _
              (sample_configured [] (fun _ => unreachable)) eq_refl)
    as (w' & Hrun & _).
  exists w'. exact Hrun.
Defined.

(** A body that is JSON but not an object makes the call fail either
    way: on a failed response with the [AttributeError] of [.get], on an
    ok response with the [TypeError] of the dict display, each naming
    the type of the value. *)
Theorem send_voice_otp_body_not_object phone code w g s r j :
  configured w g s ->
  gateway w (otp_request g s phone (effective_code code w)) = Responds r ->
  body r = Json j ->
  (forall members, j <> JObject members) ->
  exists w',
    send_voice_otp phone code w
      = (Raise (not_object_error (ok r) (loads j)), w').
Proof.
  intros Hcfg Hgw Hbody Hj.
  destruct (send_voice_otp_run phone code w g s Hcfg) as (w2 & _ & _ & Hrun).
  rewrite Hgw in Hrun. exists w2. rewrite Hrun.
  unfold conclude, response_json, bind, not_object_error. rewrite Hbody.
  destruct j; try (exfalso; eapply Hj; reflexivity);
    destruct (ok r); reflexivity.
Qed.

Lemma send_voice_otp_body_not_object_witness :
  exists w',
    send_voice_otp "+14155551234" None
        (sample_world sample_environ [] (fun _ => array_failure))
      = (Raise (Exception AttributeError
                  "'list' object has no attribute 'get'"), w').
Proof.
  destruct (send_voice_otp_body_not_object "+14155551234" None
              (sample_world sample_environ [] (fun _ => array_failure))
              "https://gw.example" "s3cret" _ _
              (sample_configured [] (fun _ => array_failure))
              eq_refl eq_refl)
    as (w' & Hrun).
  - intros members. discriminate.
  - exists w'. exact Hrun.
Defined.

(** A response whose body is not JSON is a failure for the caller
    whatever its status, an ok one included: the decoder's error is
    raised although the request was made. *)
Theorem send_voice_otp_ok_body_not_json phone code w g s r complaint :
  configured w g s ->
  gateway w (otp_request g s phone (effective_code code w)) = Responds r ->
  body r = NotJson complaint ->
  exists w',
    send_voice_otp phone code w
      = (Raise (Exception JSONDecodeError complaint), w') /\
    posted w'
      = (posted w ++ [otp_request g s phone (effective_code code w)])%list.
Proof.
  intros Hcfg Hgw Hbody.
  destruct (send_voice_otp_run phone code w g s Hcfg) as (w2 & Hposted & _ & Hrun).
  rewrite Hgw, (conclude_not_json _ r complaint w2 Hbody) in Hrun.
  exists w2. split; assumption.
Qed.

Lemma send_voice_otp_ok_body_not_json_witness :
  exists w',
    send_voice_otp "+14155551234" None
        (sample_world sample_environ [] (fun _ => empty_ok))
      = (Raise (Exception JSONDecodeError
                  "Expecting value: line 1 column 1 (char 0)"), w').
Proof.
  destruct (send_voice_otp_ok_body_not_json "+14155551234" None
              (sample_world sample_environ [] (fun _ => empty_ok))
              "https://gw.example" "s3cret" _ _
              (sample_configured [] (fun _ => empty_ok))
              eq_refl eq_refl)
    as (w' & Hrun & _).
  exists w'. exact Hrun.
Defined.

(** [send_voice_otp] returns a result in one case only: both
    configuration values resolve, the gateway answers, the answer is ok
    and its body is a JSON object.  Everything else is an exception. *)
Theorem send_voice_otp_returns_iff phone code w :
  (exists result w', send_voice_otp phone code w = (Ret result, w')) <->
  exists g s r members,
    configured w g s /\
    gateway w (otp_request g s phone (effective_code code w)) = Responds r /\
    ok r = true /\
    body r = Json (JObject members).
Proof.
  split.
  - intros (result & w' & Hret).
    destruct (resolved_or_not w "GATEWAY_URL") as [Hg | (g & Hg & Hgne)].
    { rewrite send_voice_otp_no_gateway_url in Hret by exact Hg.
      discriminate. }
    destruct (resolved_or_not w "API_SECRET") as [Hs | (s & Hs & Hsne)].
    { rewrite (send_voice_otp_no_api_secret phone code w g Hg Hgne Hs) in Hret.
      discriminate. }
    assert (configured w g s) as Hcfg by (repeat split; assumption).
    destruct (send_voice_otp_run phone code w g s Hcfg) as (w2 & _ & _ & Hrun).
    rewrite Hret in Hrun.
    destruct (gateway w _) as [c msg | r] eqn:Hgw; [discriminate |].
    exists g, s, r.
    destruct (body r) as [j | complaint] eqn:Hbody.
    + destruct j;
        try (edestruct (conclude_not_object (effective_code code w) r _ w2 Hbody)
               as (c & msg & _ & Hconclude);
             [discriminate | rewrite Hconclude in Hrun; discriminate]).
      exists members. repeat split; try assumption.
      rewrite (conclude_object _ r members w2 Hbody) in Hrun.
      destruct (ok r); [reflexivity | discriminate].
    + rewrite (conclude_not_json _ r complaint w2 Hbody) in Hrun.
      discriminate.
  - intros (g & s & r & members & Hcfg & Hgw & Hok & Hbody).
    destruct (send_voice_otp_run phone code w g s Hcfg) as (w2 & _ & _ & Hrun).
    rewrite Hgw, (conclude_object _ r members w2 Hbody), Hok in Hrun.
    eexists _, w2. exact Hrun.
Qed.

Lemma send_voice_otp_posted phone code w g s :
  configured w g s ->
  posted (send_voice_otp phone code w).2
    = (posted w ++ [otp_request g s phone (effective_code code w)])%list.
Proof.
  intros Hcfg.
  destruct (send_voice_otp_run phone code w g s Hcfg)
    as (w2 & Hposted & _ & Hrun).
  rewrite Hrun. destruct (gateway w _) as [c msg | r]; [exact Hposted |].
  destruct (conclude_pure (effective_code code w) r) as (res & Hres).
  rewrite Hres. exact Hposted.
Qed.

(** The code put in the request is never the empty string, whatever
    the caller passed. *)
Theorem send_voice_otp_code_never_empty phone code w g s :
  configured w g s ->
  effective_code code w <> "" /\
  exists request,
    posted (send_voice_otp phone code w).2 = (posted w ++ [request])%list /\
    json request = PDict [("phone", PStr phone);
                          ("code", PStr (effective_code code w));
                          ("secret", PStr s)].
Proof.
  intros Hcfg. split.
  - assert (generates code = true -> effective_code code w <> "") as Hgen.
    { intros Hgenerated.
      assert (effective_code code w
              = str_int (100000 + random w (drawn w) mod 900000)) as ->.
      { unfold effective_code.
        destruct code as [[| c code] |]; try discriminate; reflexivity. }
      pose proof (Z.mod_pos_bound (random w (drawn w)) 900000) as Hbound.
      destruct (str_int_six (100000 + random w (drawn w) mod 900000))
        as (Hlen & _); [lia |].
      intros Hempty. rewrite Hempty in Hlen. discriminate. }
    destruct code as [[| c code] |]; try (apply Hgen; reflexivity).
    discriminate.
  - exists (otp_request g s phone (effective_code code w)).
    split; [| reflexivity]. apply send_voice_otp_posted. exact Hcfg.
Qed.

Lemma send_voice_otp_code_never_empty_witness :
  effective_code (Some "")
    (sample_world sample_environ [] (fun _ => queued)) <> "".
Proof.
  apply (send_voice_otp_code_never_empty "+14155551234" (Some "")
           (sample_world sample_environ [] (fun _ => queued))
           "https://gw.example" "s3cret"
           (sample_configured [] (fun _ => queued))).
Defined.

Lemma send_voice_otp_returns_iff_witness :
  exists result w',
    send_voice_otp "+14155551234" None
        (sample_world sample_environ [] (fun _ => queued))
      = (Ret result, w').
Proof.
  apply (send_voice_otp_returns_iff "+14155551234" None
           (sample_world sample_environ [] (fun _ => queued))).
  eexists "https://gw.example", "s3cret", _, _.
  split; [exact (sample_configured [] (fun _ => queued)) |].
  split; [reflexivity |]. split; reflexivity.
Defined.

(** ** The order of the result's fields *)

Lemma keys_update base items :
  NoDup (Dict.keys items) ->
  Dict.keys (Dict.update base items)
    = (Dict.keys base
       ++ List.filter
            (fun k => negb (existsb (String.eqb k) (Dict.keys base)))
            (Dict.keys items))%list.
Proof.
  revert base. induction items as [| [k v] items IH]; intros base Hnd.
  - cbn. rewrite app_nil_r. reflexivity.
  - cbn [Dict.keys map fst] in Hnd. apply NoDup_cons in Hnd as [Hnotin Hnd].
    change (Dict.update base ((k, v) :: items))
      with (Dict.update (Dict.set k v base) items).
    rewrite (IH _ Hnd), keys_set.
    cbn [Dict.keys map fst List.filter].
    fold (Dict.keys items) (Dict.keys base).
    destruct (Dict.get k base) as [v' |] eqn:Hget.
    + assert (existsb (String.eqb k) (Dict.keys base) = true) as ->.
      { apply existsb_exists. exists k. split; [| apply String.eqb_refl].
        destruct (in_dec string_dec k (Dict.keys base)) as [Hin | Hout];
          [exact Hin |].
        rewrite (get_absent k base Hout) in Hget. discriminate. }
      reflexivity.
    + assert (existsb (String.eqb k) (Dict.keys base) = false) as ->.
      { apply not_true_is_false. intros Hex.
        apply existsb_exists in Hex as (k' & Hin & Heq).
        apply String.eqb_eq in Heq as <-.
        destruct (get_present k base Hin) as (v' & Hv'). congruence. }
      cbn [negb]. rewrite <- app_assoc. cbn [app]. do 2 f_equal.
      apply filter_ext_in. intros k' Hin. f_equal.
      rewrite existsb_app. cbn [existsb]. rewrite orb_false_r.
      destruct (String.eqb_spec k' k) as [-> | Hne];
        [| rewrite orb_false_r; reflexivity].
      exfalso. apply Hnotin. apply list_elem_of_In. exact Hin.
Qed.

(** The result of a successful call lists [code] first and then the
    other fields of the body in the body's order, each field once. *)
Theorem send_voice_otp_result_keys phone code w g s r members result w' :
  configured w g s ->
  gateway w (otp_request g s phone (effective_code code w)) = Responds r ->
  body r = Json (JObject members) ->
  send_voice_otp phone code w = (Ret result, w') ->
  Dict.keys result
    = "code" :: List.filter (fun k => negb (String.eqb k "code"))
                  (Dict.keys (loads_object members)) /\
  NoDup (Dict.keys result).
Proof.
  intros Hcfg Hgw Hbody Hret.
  destruct (send_voice_otp_run phone code w g s Hcfg) as (w2 & _ & _ & Hrun).
  rewrite Hgw, (conclude_object _ r members w2 Hbody), Hret in Hrun.
  destruct (ok r); [| discriminate]. injection Hrun as -> _.
  split.
  - rewrite keys_update by apply NoDup_keys_loads_object.
    cbn [Dict.keys map fst app]. f_equal.
    apply filter_ext. intros k. cbn [existsb]. rewrite orb_false_r.
    reflexivity.
  - apply NoDup_keys_update. cbn. apply NoDup_singleton.
Qed.

Lemma send_voice_otp_result_keys_witness :
  exists result w',
    send_voice_otp "+14155551234" (Some "482913")
        (sample_world sample_environ [] (fun _ => echoes_code))
      = (Ret result, w') /\
    Dict.keys result = ["code"; "status"].
Proof.
  assert (send_voice_otp "+14155551234" (Some "482913")
            (sample_world sample_environ [] (fun _ => echoes_code))
          = (Ret [("code", PStr "000000"); ("status", PStr "queued")],
             (send_voice_otp "+14155551234" (Some "482913")
                (sample_world sample_environ [] (fun _ => echoes_code))).2))
    as Hret.
  { apply injective_projections; [vm_compute; reflexivity | reflexivity]. }
  eexists _, _. split; [exact Hret |].
  apply (send_voice_otp_result_keys "+14155551234" (Some "482913")
           (sample_world sample_environ [] (fun _ => echoes_code))
           "https://gw.example" "s3cret" _ _ _ _
           (sample_configured [] (fun _ => echoes_code))
           eq_refl eq_refl Hret).
Defined.

(** ** More on [generate_otp] *)

Section LeadingDigit.

Local Ltac Zify.zify_post_hook ::= Z.to_euclidean_division_equations.

(** A generated code never starts with the digit 0: its first
    character is one of 1 to 9. *)
Theorem generate_otp_no_leading_zero (w : world) :
  exists first rest w',
    generate_otp w = (Ret (String first rest), w') /\
    Re.in_range "1" "9" first = true.
Proof.
  rewrite generate_otp_run.
  pose proof (Z.mod_pos_bound (random w (drawn w)) 900000) as Hbound.
  destruct (100000 + random w (drawn w) mod 900000) as [| p | p] eqn:Hn;
    try lia.
  unfold str_int. change (pretty (Z.pos p)) with (pretty (N.pos p)).
  rewrite pretty_N_six by lia.
  eexists _, _, _. split; [reflexivity |].
  assert (N.pos p / 100000 mod 10 = 1 \/ N.pos p / 100000 mod 10 = 2 \/
          N.pos p / 100000 mod 10 = 3 \/ N.pos p / 100000 mod 10 = 4 \/
          N.pos p / 100000 mod 10 = 5 \/ N.pos p / 100000 mod 10 = 6 \/
          N.pos p / 100000 mod 10 = 7 \/ N.pos p / 100000 mod 10 = 8 \/
          N.pos p / 100000 mod 10 = 9)%N as Hfirst by lia.
  repeat (destruct Hfirst as [-> | Hfirst]; [reflexivity |]).
  rewrite Hfirst. reflexivity.
Qed.

End LeadingDigit.

(** ** More on [main] *)





Lemma phone_pattern_accepts_witness :
  Re.match_ phone_pattern "+14155551234" = true /\
  Re.match_ phone_pattern newline_phone = true.
Proof.
  split; apply phone_pattern_accepts.
  - left. reflexivity.
  - right. exists "+14155551234". split; reflexivity.
Defined.
